(** * Report service: a shallow embedding of [main.py]

    The service has two handlers with behaviour of their own:
    [test_database] (GET /test) and [generate_report]
    (POST /generate-report).  Both are embedded here as executable
    functions.  Python [str] values are modelled by [string], one
    [ascii] per character; [int] values by [Z].  Calls into third-party
    code (the layout library, the file system, the optional [database]
    module, the process environment) are taken as explicit outcomes, so
    that the handlers' own control flow -- including their [try] /
    [except] blocks -- is what the theorems are about. *)

From Stdlib Require Import ZArith List Bool Lia Arith.
From Stdlib Require Import Strings.String Strings.Ascii.
Import ListNotations.

Open Scope list_scope.
Open Scope string_scope.

(* ================================================================== *)
(** ** Python string primitives used by the handlers *)

Module Py.

(** The newline character ['\n']. *)
Definition nl_char : ascii := "010"%char.
Definition nl : string := String nl_char EmptyString.

(** [s[:n]] *)
Fixpoint take (n : nat) (s : string) : string :=
  match n, s with
  | S k, String c s' => String c (take k s')
  | _, _ => EmptyString
  end.

(** [str.lower] on one character.  Only the letters [A]..[Z] are
    mapped; characters outside ASCII are left as they are, which does
    not affect a test for the suffix [.pdf]. *)
Definition is_upper (c : ascii) : bool :=
  (65 <=? nat_of_ascii c)%nat && (nat_of_ascii c <=? 90)%nat.

Definition lower_char (c : ascii) : ascii :=
  if is_upper c then ascii_of_nat (nat_of_ascii c + 32) else c.

Fixpoint lower (s : string) : string :=
  match s with
  | EmptyString => EmptyString
  | String c s' => String (lower_char c) (lower s')
  end.

(** [s.startswith(p)] *)
Definition startswith (s p : string) : bool := String.prefix p s.

(** [s.endswith(suf)]: [s] is [suf] itself, or its tail ends with
    [suf]. *)
Fixpoint endswith (s suf : string) : bool :=
  if String.eqb s suf then true
  else match s with
       | EmptyString => false
       | String _ s' => endswith s' suf
       end.

(** [bool(s)] for a string. *)
Definition truthy (s : string) : bool :=
  match s with EmptyString => false | _ => true end.

(** [s.replace(old, new)] for a non-empty [old]: scan from the left;
    at a position where [old] occurs emit [new] and skip the rest of
    the occurrence ([skip] counts the characters still to drop). *)
Fixpoint replace_from (old new : string) (skip : nat) (s : string) : string :=
  match s with
  | EmptyString => EmptyString
  | String c s' =>
      match skip with
      | S k => replace_from old new k s'
      | O =>
          if String.prefix old s
          then new ++ replace_from old new (String.length old - 1) s'
          else String c (replace_from old new 0 s')
      end
  end.

Definition replace (s old new : string) : string :=
  replace_from old new 0 s.

(** [c in s] for a single character. *)
Fixpoint contains_char (c : ascii) (s : string) : bool :=
  match s with
  | EmptyString => false
  | String d s' => Ascii.eqb c d || contains_char c s'
  end.

(** [s.count(c)] for a single character. *)
Fixpoint count_char (c : ascii) (s : string) : nat :=
  match s with
  | EmptyString => 0
  | String d s' => (if Ascii.eqb c d then 1 else 0) + count_char c s'
  end.

(** [max(a, b)] and the length of [range(n)]. *)
Definition max (a b : Z) : Z := Z.max a b.
Definition range_len (n : Z) : nat := Z.to_nat n.

(** [posixpath.join(a, b)] *)
Definition path_join (a b : string) : string :=
  if startswith b "/" then b
  else if negb (truthy a) || endswith a "/" then a ++ b
  else a ++ "/" ++ b.

(** The components of a path, separated by ['/']. *)
Fixpoint split_sep (s : string) : list string :=
  match s with
  | EmptyString => [EmptyString]
  | String c s' =>
      if Ascii.eqb c "/"%char then EmptyString :: split_sep s'
      else match split_sep s' with
           | h :: t => String c h :: t
           | [] => [String c EmptyString]
           end
  end.

(** One step of resolving an absolute path: the directory stack is
    kept innermost first; empty and [.] components stay in place,
    [..] goes up (and stays at the root when already there). *)
Definition resolve_step (stack : list string) (seg : string) : list string :=
  if String.eqb seg EmptyString || String.eqb seg "." then stack
  else if String.eqb seg ".." then tl stack
  else seg :: stack.

(** The directory chain, outermost first, that an absolute path
    denotes ([posixpath.normpath] read as a list of names). *)
Definition resolve (path : string) : list string :=
  rev (fold_left resolve_step (split_sep path) []).

Definition isabs (path : string) : bool := startswith path "/".

Fixpoint strict_prefix (d p : list string) : bool :=
  match d, p with
  | [], _ :: _ => true
  | x :: d', y :: p' => String.eqb x y && strict_prefix d' p'
  | _, _ => false
  end.

(** A component that names an entry: not empty, not [.], not [..]. *)
Definition plain_name (seg : string) : Prop :=
  seg <> EmptyString /\ seg <> "." /\ seg <> "..".

(** [path] names something strictly below the directory [dir]. *)
Definition located_inside (dir path : string) : bool :=
  isabs path && strict_prefix (resolve dir) (resolve path).

End Py.

(* ================================================================== *)
(** ** Exceptions, and computations that may raise *)

(** The exceptions that derive from [Exception], by the classes the
    handlers tell apart; [exn_str] is [str(e)]. *)
Inductive ExnClass : Type :=
| ImportError
| OtherException.

Record Exn : Type := mkExn {
  exn_class : ExnClass;
  exn_str : string
}.

(** The exceptions that derive from [BaseException] only, such as
    [KeyboardInterrupt] and [SystemExit]: no [except Exception] clause
    catches them. *)
Record BaseExn : Type := mkBaseExn {
  base_class : string;
  base_str : string
}.

Definition keyboard_interrupt : BaseExn :=
  mkBaseExn "KeyboardInterrupt" EmptyString.

(** Anything a call can raise. *)
Inductive Thrown : Type :=
| Ordinary (e : Exn)
| BaseOnly (b : BaseExn).

(** What leaves a handler when it does not return: the [HTTPException]
    it raises itself, an exception deriving from [Exception] that it
    let through, or one deriving from [BaseException] only. *)
Inductive Raised : Type :=
| HTTPException (status_code : Z) (detail : string)
| Propagated (e : Exn)
| Escaped (b : BaseExn).

Module Exec.
Section Monad.

Variable St : Type.

(** A computation over the mutable state [St] that returns a value or
    raises. *)
Definition M (A : Type) : Type := St -> (Exn + A) * St.

Definition ret {A} (a : A) : M A := fun s => (inr a, s).

Definition bind {A B} (c : M A) (k : A -> M B) : M B :=
  fun s =>
    match c s with
    | (inr a, s') => k a s'
    | (inl e, s') => (inl e, s')
    end.

Definition raise {A} (e : Exn) : M A := fun s => (inl e, s).

Definition modify (f : St -> St) : M unit := fun s => (inr tt, f s).

(** An outside call that either raises or gives a value. *)
Definition call {A} (r : Exn + A) : M A := fun s => (r, s).

(** An outside call made for its effect only. *)
Definition attempt (r : option Exn) : M unit :=
  match r with
  | Some e => raise e
  | None => ret tt
  end.

(** [try: body / except Exception as e: handler e] *)
Definition try_except {A} (body : M A) (handler : Exn -> M A) : M A :=
  fun s =>
    match body s with
    | (inr a, s') => (inr a, s')
    | (inl e, s') => handler e s'
    end.

(** [for _ in range(n): acc = step acc] *)
Fixpoint for_range {A} (n : nat) (step : A -> M A) (acc : A) : M A :=
  match n with
  | O => ret acc
  | S k => bind (step acc) (for_range k step)
  end.

End Monad.
End Exec.

Arguments Exec.ret {St A} a.
Arguments Exec.bind {St A B} c k.
Arguments Exec.raise {St A} e.
Arguments Exec.modify {St} f.
Arguments Exec.call {St A} r.
Arguments Exec.attempt {St} r.
Arguments Exec.try_except {St A} body handler.
Arguments Exec.for_range {St A} n step acc.

Notation "x <- c ;; k" := (Exec.bind c (fun x => k))
  (at level 61, c at next level, right associativity).
Notation "c ;; k" := (Exec.bind c (fun _ => k))
  (at level 61, right associativity).

(** The same computations when a call may raise anything: [Exec] is
    the case in which every exception derives from [Exception]. *)
Module ExecAll.
Section Monad.

Variable St : Type.

Definition M (A : Type) : Type := St -> (Thrown + A) * St.

Definition ret {A} (a : A) : M A := fun s => (inr a, s).

Definition bind {A B} (c : M A) (k : A -> M B) : M B :=
  fun s =>
    match c s with
    | (inr a, s') => k a s'
    | (inl t, s') => (inl t, s')
    end.

Definition raise {A} (t : Thrown) : M A := fun s => (inl t, s).

Definition modify (f : St -> St) : M unit := fun s => (inr tt, f s).

Definition call {A} (r : Thrown + A) : M A := fun s => (r, s).

Definition attempt (r : option Thrown) : M unit :=
  match r with
  | Some t => raise t
  | None => ret tt
  end.

(** [try: body / except Exception as e: handler e]: an exception that
    derives from [BaseException] only is not caught. *)
Definition try_except {A} (body : M A) (handler : Exn -> M A) : M A :=
  fun s =>
    match body s with
    | (inr a, s') => (inr a, s')
    | (inl (Ordinary e), s') => handler e s'
    | (inl (BaseOnly b), s') => (inl (BaseOnly b), s')
    end.

Fixpoint for_range {A} (n : nat) (step : A -> M A) (acc : A) : M A :=
  match n with
  | O => ret acc
  | S k => bind (step acc) (for_range k step)
  end.

End Monad.
End ExecAll.

Arguments ExecAll.ret {St A} a.
Arguments ExecAll.bind {St A B} c k.
Arguments ExecAll.raise {St A} t.
Arguments ExecAll.modify {St} f.
Arguments ExecAll.call {St A} r.
Arguments ExecAll.attempt {St} r.
Arguments ExecAll.try_except {St A} body handler.
Arguments ExecAll.for_range {St A} n step acc.

Declare Scope all_scope.
Notation "x <- c ;; k" := (ExecAll.bind c (fun x => k))
  (at level 61, c at next level, right associativity) : all_scope.
Notation "c ;; k" := (ExecAll.bind c (fun _ => k))
  (at level 61, right associativity) : all_scope.

(* ================================================================== *)
(** ** POST /generate-report *)

Module Report.

Local Open Scope all_scope.

Record ReportRequest : Type := mkReportRequest {
  title : string;
  pages : Z;
  section_title : string;
  section_body : string;
  filename : option string
}.

Definition default_title : string :=
  "Seminar Report: The Web (World Wide Web)".
Definition default_pages : Z := 80.
Definition default_section_title : string :=
  "Chapter: The Evolution of the Web".
Definition default_section_body : string :=
  "The Web has evolved from a collection of static documents into a dynamic, interactive, and intelligent ecosystem."
  ++ Py.nl ++
  "It started with Web 1.0, primarily focused on static pages, progressed into Web 2.0 characterized by user-generated content "
  ++
  "and social platforms, and is currently transitioning into Web 3.0, which emphasizes decentralization, security, trustless systems, "
  ++
  "semantic understanding, and immersive digital experiences."
  ++ Py.nl ++ Py.nl ++
  "The Web continues to be the backbone of the digital era, enabling communication, business, entertainment, and global connectivity."
  ++ Py.nl ++
  "Detailed studies show that the future Web will integrate AI, blockchain, edge computing, and mixed reality technologies.".
Definition default_filename : string := "Web_Seminar_Report_80Pages.pdf".

(** A request body as it arrives, with fields of the declared types:
    every field may be absent, and [filename] may also be an explicit
    [null].  Bodies with a field of another type are turned down by the
    schema as well; they are not represented here. *)
Record Body : Type := mkBody {
  body_title : option string;
  body_pages : option Z;
  body_section_title : option string;
  body_section_body : option string;
  body_filename : option (option string)
}.

Definition from_option {A} (d : A) (o : option A) : A :=
  match o with Some a => a | None => d end.

(** [Field(ge=1, le=200)] *)
Definition pages_ok (n : Z) : bool := (1 <=? n)%Z && (n <=? 200)%Z.

(** Schema validation of a body: defaults are filled in, and the
    constraint on [pages] is checked on a supplied value. *)
Definition validate (b : Body) : option ReportRequest :=
  match body_pages b with
  | Some n =>
      if pages_ok n
      then Some (mkReportRequest
                   (from_option default_title (body_title b))
                   n
                   (from_option default_section_title (body_section_title b))
                   (from_option default_section_body (body_section_body b))
                   (from_option (Some default_filename) (body_filename b)))
      else None
  | None =>
      Some (mkReportRequest
              (from_option default_title (body_title b))
              default_pages
              (from_option default_section_title (body_section_title b))
              (from_option default_section_body (body_section_body b))
              (from_option (Some default_filename) (body_filename b)))
  end.

(** Layout objects. *)
Record ParagraphStyle : Type := mkStyle {
  style_name : string;
  style_parent : option string;
  leading : option Z;
  alignment : option Z
}.

Definition TA_JUSTIFY : Z := 4.

Definition title_style : ParagraphStyle :=
  mkStyle "Title" None None None.
Definition body_style : ParagraphStyle :=
  mkStyle "Body" (Some "Normal") (Some 16%Z) (Some TA_JUSTIFY).

Inductive Flowable : Type :=
| Paragraph (text : string) (style : ParagraphStyle)
| PageBreak.

(** A file as a run can leave it: a finished document, or whatever a
    write that raised left behind. *)
Inductive File : Type :=
| Document (content : list Flowable)
| Partial.

(** The file system as far as the handler touches it: the directories
    that exist, and the file stored under each path (one entry per
    path). *)
Record World : Type := mkWorld {
  directories : list string;
  files : list (string * File)
}.

Definition read (path : string) (w : World) : option File :=
  match find (fun entry => String.eqb (fst entry) path) (files w) with
  | Some entry => Some (snd entry)
  | None => None
  end.

(** Writing replaces what was stored under the path. *)
Definition write (path : string) (f : File) (w : World) : World :=
  mkWorld (directories w)
          ((path, f)
           :: filter (fun entry => negb (String.eqb (fst entry) path)) (files w)).

(** [exist_ok=True]: a directory that is there already is left alone. *)
Definition add_directory (dir : string) (w : World) : World :=
  if existsb (String.eqb dir) (directories w) then w
  else mkWorld (dir :: directories w) (files w).

(** The outcomes of the calls the handler makes outside itself:
    [None] when the call goes through, [Some t] when it raises [t].
    [leaves_partial] tells whether a write that raised had already
    put something under the path. *)
Record Platform : Type := mkPlatform {
  import_reportlab : option Thrown;
  paragraph_init : string -> ParagraphStyle -> option Thrown;
  makedirs : string -> option Thrown;
  doc_build : string -> list Flowable -> option Thrown;
  leaves_partial : string -> bool
}.

Definition indent : string := "        ".

Definition intro_text (payload : ReportRequest) : string :=
  Py.nl ++ indent ++ "<b>" ++ title payload ++ "</b><br/><br/>" ++ Py.nl
  ++ indent
  ++ "This report provides an extensive analysis of the Web, its evolution, architecture, technologies, applications, and future trends."
  ++ Py.nl ++ indent.

Definition section_html (payload : ReportRequest) : string :=
  Py.nl ++ indent ++ "<b>" ++ section_title payload ++ "</b><br/><br/>" ++ Py.nl
  ++ indent ++ Py.replace (section_body payload) Py.nl "<br/>"
  ++ Py.nl ++ indent.

Definition pages_to_add (payload : ReportRequest) : Z :=
  Py.max (pages payload - 1) 1.

(** [payload.filename or default], then the extension. *)
Definition safe_name (payload : ReportRequest) : string :=
  let name :=
    match filename payload with
    | Some f => if Py.truthy f then f else default_filename
    | None => default_filename
    end in
  if negb (Py.endswith (Py.lower name) ".pdf") then name ++ ".pdf" else name.

Definition out_dir : string := "/mnt/data".

Definition file_path (payload : ReportRequest) : string :=
  Py.path_join out_dir (safe_name payload).

(** [Paragraph(text, style)]: the constructor parses the markup and
    may raise. *)
Definition new_paragraph (pf : Platform) (text : string) (style : ParagraphStyle)
  : ExecAll.M World Flowable :=
  ExecAll.attempt (paragraph_init pf text style) ;;
  ExecAll.ret (Paragraph text style).

(** [os.makedirs(dir, exist_ok=True)] *)
Definition os_makedirs (pf : Platform) (dir : string) : ExecAll.M World unit :=
  ExecAll.attempt (makedirs pf dir) ;;
  ExecAll.modify (add_directory dir).

(** [SimpleDocTemplate(path, ...).build(content)]: the document replaces
    what was under [path]; when the call raises, the path keeps what it
    had unless the write had started. *)
Definition build (pf : Platform) (path : string) (content : list Flowable)
  : ExecAll.M World unit :=
  fun w =>
    match doc_build pf path content with
    | None => (inr tt, write path (Document content) w)
    | Some t => (inl t, if leaves_partial pf path then write path Partial w else w)
    end.

(** The list [content] as the handler builds it. *)
Definition build_content (pf : Platform) (payload : ReportRequest)
  : ExecAll.M World (list Flowable) :=
  let content := [] in
  p <- new_paragraph pf (intro_text payload) title_style ;;
  let content := (content ++ [p])%list in
  let content := (content ++ [PageBreak])%list in
  ExecAll.for_range (Py.range_len (pages_to_add payload))
    (fun content =>
       p <- new_paragraph pf (section_html payload) body_style ;;
       ExecAll.ret ((content ++ [p]) ++ [PageBreak])%list)
    content.

Record Result : Type := mkResult {
  status : string;
  result_file_path : string
}.

(** The body of the handler's [try] block. *)
Definition generate_report_try (pf : Platform) (payload : ReportRequest)
  : ExecAll.M World Result :=
  ExecAll.attempt (import_reportlab pf) ;;
  content <- build_content pf payload ;;
  os_makedirs pf out_dir ;;
  build pf (file_path payload) content ;;
  ExecAll.ret (mkResult "ok" (file_path payload)).

(** [except Exception as e: raise HTTPException(status_code=500,
    detail=str(e))]; the clause does not apply to an exception that
    derives from [BaseException] only. *)
Definition except_clause (t : Thrown) : Raised :=
  match t with
  | Ordinary e => HTTPException 500 (exn_str e)
  | BaseOnly b => Escaped b
  end.

(** The handler. *)
Definition generate_report (pf : Platform) (payload : ReportRequest) (w : World)
  : (Raised + Result) * World :=
  match generate_report_try pf payload w with
  | (inr r, w') => (inr r, w')
  | (inl t, w') => (inl (except_clause t), w')
  end.

(** What the route answers; [Crash] stands for an exception that got
    past the handler. *)
Inductive Response : Type :=
| Ok (r : Result)
| ValidationError
| ServerError (status_code : Z) (detail : string)
| Crash (t : Thrown).

Definition response_code (r : Response) : Z :=
  match r with
  | Ok _ => 200
  | ValidationError => 422
  | ServerError c _ => c
  | Crash _ => 500
  end.

(** The route: the body is validated first; the handler runs only on a
    valid [ReportRequest]. *)
Definition post_generate_report (pf : Platform) (b : Body) (w : World)
  : Response * World :=
  match validate b with
  | None => (ValidationError, w)
  | Some payload =>
      match generate_report pf payload w with
      | (inr r, w') => (Ok r, w')
      | (inl (HTTPException c d), w') => (ServerError c d, w')
      | (inl (Propagated e), w') => (Crash (Ordinary e), w')
      | (inl (Escaped b), w') => (Crash (BaseOnly b), w')
      end
  end.

(** A platform on which every outside call goes through. *)
Definition healthy : Platform :=
  mkPlatform None (fun _ _ => None) (fun _ => None) (fun _ _ => None)
             (fun _ => false).

Definition empty_world : World := mkWorld [] [].

(** The request with every field at its default, and with a given
    [filename]. *)
Definition default_request : ReportRequest :=
  mkReportRequest default_title default_pages default_section_title
                  default_section_body (Some default_filename).

Definition with_filename (f : option string) : ReportRequest :=
  mkReportRequest default_title default_pages default_section_title
                  default_section_body f.

(** The resolved filename read literally off the specification: the
    default for an absent or empty name, otherwise the name, with
    [.pdf] appended exactly when the name does not end in [.pdf]. *)
Definition spec_resolved_name (f : option string) : string :=
  match f with
  | None => default_filename
  | Some EmptyString => default_filename
  | Some name => if Py.endswith name ".pdf" then name else name ++ ".pdf"
  end.

(** Line 113 read one character at a time: a newline becomes the
    markup [<br/>], any other character stays. *)
Fixpoint br_expand (s : string) : string :=
  match s with
  | EmptyString => EmptyString
  | String c s' =>
      if Ascii.eqb c Py.nl_char then "<br/>" ++ br_expand s'
      else String c (br_expand s')
  end.

(** Content blocks are the paragraphs of the list. *)
Definition is_block (f : Flowable) : bool :=
  match f with
  | Paragraph _ _ => true
  | PageBreak => false
  end.

Definition count_blocks (content : list Flowable) : nat :=
  List.length (filter is_block content).

(** Every content block has a page break right after it. *)
Fixpoint each_followed_by_break (content : list Flowable) : bool :=
  match content with
  | [] => true
  | PageBreak :: rest => each_followed_by_break rest
  | Paragraph _ _ :: rest =>
      match rest with
      | PageBreak :: rest' => each_followed_by_break rest'
      | _ => false
      end
  end.

Definition title_block (payload : ReportRequest) : Flowable :=
  Paragraph (intro_text payload) title_style.

Definition section_block (payload : ReportRequest) : Flowable :=
  Paragraph (section_html payload) body_style.

(** The list the loop leaves behind when no constructor raises. *)
Definition content_of (payload : ReportRequest) : list Flowable :=
  title_block payload :: PageBreak ::
  List.concat (repeat [section_block payload; PageBreak]
                 (Py.range_len (pages_to_add payload))).

(** Every outside call of a run on [payload] goes through. *)
Definition goes_through (pf : Platform) (payload : ReportRequest) : Prop :=
  import_reportlab pf = None
  /\ paragraph_init pf (intro_text payload) title_style = None
  /\ paragraph_init pf (section_html payload) body_style = None
  /\ makedirs pf out_dir = None
  /\ doc_build pf (file_path payload) (content_of payload) = None.

(** The first outside call of a run on [payload] that raises, raises
    [e]: the imports, the layout construction (title paragraph,
    section paragraph), the directory creation, the file write. *)
Inductive raises (pf : Platform) (payload : ReportRequest) (e : Thrown) : Prop :=
| raises_import :
    import_reportlab pf = Some e ->
    raises pf payload e
| raises_title :
    import_reportlab pf = None ->
    paragraph_init pf (intro_text payload) title_style = Some e ->
    raises pf payload e
| raises_section :
    import_reportlab pf = None ->
    paragraph_init pf (intro_text payload) title_style = None ->
    paragraph_init pf (section_html payload) body_style = Some e ->
    raises pf payload e
| raises_makedirs :
    import_reportlab pf = None ->
    paragraph_init pf (intro_text payload) title_style = None ->
    paragraph_init pf (section_html payload) body_style = None ->
    makedirs pf out_dir = Some e ->
    raises pf payload e
| raises_build :
    import_reportlab pf = None ->
    paragraph_init pf (intro_text payload) title_style = None ->
    paragraph_init pf (section_html payload) body_style = None ->
    makedirs pf out_dir = None ->
    doc_build pf (file_path payload) (content_of payload) = Some e ->
    raises pf payload e.

Definition with_pages (n : Z) : ReportRequest :=
  mkReportRequest default_title n default_section_title
                  default_section_body (Some default_filename).

(** A platform whose file write is refused. *)
Definition permission_denied : Exn := mkExn OtherException "Permission denied".

Definition read_only : Platform :=
  mkPlatform None (fun _ _ => None) (fun _ => None)
             (fun _ _ => Some (Ordinary permission_denied))
             (fun _ => false).

(** A platform whose paragraph constructor turns the markup down. *)
Definition markup_error : Exn := mkExn OtherException "paraparser: syntax error".

Definition strict_markup : Platform :=
  mkPlatform None (fun _ _ => Some (Ordinary markup_error)) (fun _ => None)
             (fun _ _ => None) (fun _ => false).

(** A platform on which the write is interrupted from the keyboard. *)
Definition interrupted : Platform :=
  mkPlatform None (fun _ _ => None) (fun _ => None)
             (fun _ _ => Some (BaseOnly keyboard_interrupt))
             (fun _ => true).

End Report.

(* ================================================================== *)
(** ** GET /test *)

Module Probe.

(** The [response] dictionary; its keys are fixed. *)
Record Response : Type := mkResponse {
  backend : string;
  database : string;
  database_url : option string;
  database_name : option string;
  connection_status : string;
  collections : list string
}.

Definition set_database (v : string) (r : Response) : Response :=
  mkResponse (backend r) v (database_url r) (database_name r)
             (connection_status r) (collections r).
Definition set_database_url (v : option string) (r : Response) : Response :=
  mkResponse (backend r) (database r) v (database_name r)
             (connection_status r) (collections r).
Definition set_database_name (v : option string) (r : Response) : Response :=
  mkResponse (backend r) (database r) (database_url r) v
             (connection_status r) (collections r).
Definition set_connection_status (v : string) (r : Response) : Response :=
  mkResponse (backend r) (database r) (database_url r) (database_name r)
             v (collections r).
Definition set_collections (v : list string) (r : Response) : Response :=
  mkResponse (backend r) (database r) (database_url r) (database_name r)
             (connection_status r) v.

(** Looking up the attribute [name] of the handle: absent, present
    with a value, or raising something other than [AttributeError]
    (which [hasattr] lets through). *)
Inductive AttrLookup : Type :=
| AttrMissing
| AttrValue (v : string)
| AttrRaises (e : Exn).

(** The handle [db] as far as the handler uses it. *)
Record Db : Type := mkDb {
  db_name : AttrLookup;
  list_collection_names : Exn + list string
}.

(** [from database import db]: the import raises, or binds [db] to
    [None] or to a handle. *)
Inductive Import : Type :=
| ImportRaises (e : Exn)
| Imported (db : option Db).

(** The two environment variables the handler reads. *)
Record Environ : Type := mkEnviron {
  DATABASE_URL : option string;
  DATABASE_NAME : option string
}.

(** [bool(os.getenv(k))] *)
Definition getenv_truthy (v : option string) : bool :=
  match v with
  | Some s => Py.truthy s
  | None => false
  end.

Definition initial : Response :=
  mkResponse "✅ Running" "❌ Not Available" None None "Not Connected" [].

Definition msg_available : string := "✅ Available".
Definition msg_configured : string := "✅ Configured".
Definition msg_connected : string := "✅ Connected".
Definition msg_working : string := "✅ Connected & Working".
Definition msg_connected_error : string := "⚠️  Connected but Error: ".
Definition msg_not_initialized : string := "⚠️  Available but not initialized".
Definition msg_not_found : string :=
  "❌ Database module not found (run enable-database first)".
Definition msg_error : string := "❌ Error: ".
Definition msg_set : string := "✅ Set".
Definition msg_not_set : string := "❌ Not Set".

Definition import_db (i : Import) : Exec.M Response (option Db) :=
  match i with
  | ImportRaises e => Exec.raise e
  | Imported db => Exec.ret db
  end.

(** [db.name if hasattr(db, 'name') else "✅ Connected"] *)
Definition name_or_connected (d : Db) : Exec.M Response string :=
  match db_name d with
  | AttrMissing => Exec.ret msg_connected
  | AttrValue v => Exec.ret v
  | AttrRaises e => Exec.raise e
  end.

(** The inner [try] / [except Exception]. *)
Definition check_collections (d : Db) : Exec.M Response unit :=
  Exec.try_except
    (collections <- Exec.call (list_collection_names d) ;;
     Exec.modify (set_collections (firstn 10 collections)) ;;
     Exec.modify (set_database msg_working))
    (fun e =>
       Exec.modify (set_database (msg_connected_error ++ Py.take 50 (exn_str e)))).

(** The body of the outer [try]. *)
Definition probe_try (i : Import) : Exec.M Response unit :=
  db <- import_db i ;;
  match db with
  | Some d =>
      Exec.modify (set_database msg_available) ;;
      Exec.modify (set_database_url (Some msg_configured)) ;;
      n <- name_or_connected d ;;
      Exec.modify (set_database_name (Some n)) ;;
      Exec.modify (set_connection_status "Connected") ;;
      check_collections d
  | None =>
      Exec.modify (set_database msg_not_initialized)
  end.

(** The outer [except ImportError] / [except Exception as e]. *)
Definition probe_except (e : Exn) : Exec.M Response unit :=
  match exn_class e with
  | ImportError => Exec.modify (set_database msg_not_found)
  | OtherException =>
      Exec.modify (set_database (msg_error ++ Py.take 50 (exn_str e)))
  end.

Definition check_environ (env : Environ) : Exec.M Response unit :=
  Exec.modify (set_database_url
    (Some (if getenv_truthy (DATABASE_URL env) then msg_set else msg_not_set))) ;;
  Exec.modify (set_database_name
    (Some (if getenv_truthy (DATABASE_NAME env) then msg_set else msg_not_set))).

(** The handler: what it returns, or what it raises. *)
Definition test_database (i : Import) (env : Environ) : Raised + Response :=
  match (Exec.try_except (probe_try i) probe_except ;;
         check_environ env) initial with
  | (inr _, response) => inr response
  | (inl e, _) => inl (Propagated e)
  end.

(** The response as it stands when the probe is over, before the
    environment check. *)
Definition after_probe (i : Import) : Response :=
  snd (Exec.try_except (probe_try i) probe_except initial).

(** Lines 81-82 as a function on the response. *)
Definition env_fields (env : Environ) (r : Response) : Response :=
  set_database_name
    (Some (if getenv_truthy (DATABASE_NAME env) then msg_set else msg_not_set))
    (set_database_url
       (Some (if getenv_truthy (DATABASE_URL env) then msg_set else msg_not_set))
       r).

(** The exception whose text ends up in the [database] field, with the
    label put in front of it, if the probe had one. *)
Definition outer_error (e : Exn) : option (string * Exn) :=
  match exn_class e with
  | ImportError => None
  | OtherException => Some (msg_error, e)
  end.

Definition embedded_error (i : Import) : option (string * Exn) :=
  match i with
  | ImportRaises e => outer_error e
  | Imported None => None
  | Imported (Some d) =>
      match db_name d with
      | AttrRaises e => outer_error e
      | _ =>
          match list_collection_names d with
          | inl e => Some (msg_connected_error, e)
          | inr _ => None
          end
      end
  end.

(** The [database] texts that carry no exception text. *)
Definition fixed_status : list string :=
  [msg_working; msg_not_initialized; msg_not_found].

(** An environment variable is present, whatever its value. *)
Definition present (v : option string) : bool :=
  match v with
  | Some _ => true
  | None => false
  end.

(** A handle that lists the given collections. *)
Definition listing (names : list string) : Db :=
  mkDb (AttrValue "reports") (inr names).

End Probe.

(* ================================================================== *)
(** ** GET /test, when a call may raise anything *)

(** [Probe] takes every exception of the probe to derive from
    [Exception].  Here the import, the lookup of [name] and the listing
    may also raise an exception that derives from [BaseException] only;
    the response, its fields and the texts are those of [Probe]. *)
Module ProbeAll.

Import Probe.
Local Open Scope all_scope.

Inductive AttrLookup : Type :=
| AttrMissing
| AttrValue (v : string)
| AttrRaises (t : Thrown).

Record Db : Type := mkDb {
  db_name : AttrLookup;
  list_collection_names : Thrown + list string
}.

Inductive Import : Type :=
| ImportRaises (t : Thrown)
| Imported (db : option Db).

Definition import_db (i : Import) : ExecAll.M Response (option Db) :=
  match i with
  | ImportRaises t => ExecAll.raise t
  | Imported db => ExecAll.ret db
  end.

(** [db.name if hasattr(db, 'name') else "✅ Connected"] *)
Definition name_or_connected (d : Db) : ExecAll.M Response string :=
  match db_name d with
  | AttrMissing => ExecAll.ret msg_connected
  | AttrValue v => ExecAll.ret v
  | AttrRaises t => ExecAll.raise t
  end.

(** The inner [try] / [except Exception]. *)
Definition check_collections (d : Db) : ExecAll.M Response unit :=
  ExecAll.try_except
    (collections <- ExecAll.call (list_collection_names d) ;;
     ExecAll.modify (set_collections (firstn 10 collections)) ;;
     ExecAll.modify (set_database msg_working))
    (fun e =>
       ExecAll.modify
         (set_database (msg_connected_error ++ Py.take 50 (exn_str e)))).

(** The body of the outer [try]. *)
Definition probe_try (i : Import) : ExecAll.M Response unit :=
  db <- import_db i ;;
  match db with
  | Some d =>
      ExecAll.modify (set_database msg_available) ;;
      ExecAll.modify (set_database_url (Some msg_configured)) ;;
      n <- name_or_connected d ;;
      ExecAll.modify (set_database_name (Some n)) ;;
      ExecAll.modify (set_connection_status "Connected") ;;
      check_collections d
  | None =>
      ExecAll.modify (set_database msg_not_initialized)
  end.

(** The outer [except ImportError] / [except Exception as e]. *)
Definition probe_except (e : Exn) : ExecAll.M Response unit :=
  match exn_class e with
  | ImportError => ExecAll.modify (set_database msg_not_found)
  | OtherException =>
      ExecAll.modify (set_database (msg_error ++ Py.take 50 (exn_str e)))
  end.

Definition check_environ (env : Environ) : ExecAll.M Response unit :=
  ExecAll.modify (set_database_url
    (Some (if getenv_truthy (DATABASE_URL env) then msg_set else msg_not_set))) ;;
  ExecAll.modify (set_database_name
    (Some (if getenv_truthy (DATABASE_NAME env) then msg_set else msg_not_set))).

(** The handler: what it returns, or what it raises. *)
Definition test_database (i : Import) (env : Environ) : Raised + Response :=
  match (ExecAll.try_except (probe_try i) probe_except ;;
         check_environ env) initial with
  | (inr _, response) => inr response
  | (inl (Ordinary e), _) => inl (Propagated e)
  | (inl (BaseOnly b), _) => inl (Escaped b)
  end.

(** Every exception an outcome holds derives from [Exception]. *)
Definition ordinary (t : Thrown) : bool :=
  match t with
  | Ordinary _ => true
  | BaseOnly _ => false
  end.

Definition exception_derived (i : Import) : bool :=
  match i with
  | ImportRaises t => ordinary t
  | Imported None => true
  | Imported (Some d) =>
      match db_name d with
      | AttrRaises t => ordinary t
      | _ => true
      end
      && match list_collection_names d with
         | inl t => ordinary t
         | inr _ => true
         end
  end.

(** An outcome of [Probe], read as an outcome here. *)
Definition of_attr (a : Probe.AttrLookup) : AttrLookup :=
  match a with
  | Probe.AttrMissing => AttrMissing
  | Probe.AttrValue v => AttrValue v
  | Probe.AttrRaises e => AttrRaises (Ordinary e)
  end.

Definition of_db (d : Probe.Db) : Db :=
  mkDb (of_attr (Probe.db_name d))
       (match Probe.list_collection_names d with
        | inl e => inl (Ordinary e)
        | inr names => inr names
        end).

Definition of_import (i : Probe.Import) : Import :=
  match i with
  | Probe.ImportRaises e => ImportRaises (Ordinary e)
  | Probe.Imported None => Imported None
  | Probe.Imported (Some d) => Imported (Some (of_db d))
  end.

(** A handle that is interrupted while it lists its collections. *)
Definition interrupted_listing : Db :=
  mkDb (AttrValue "reports") (inl (BaseOnly keyboard_interrupt)).

End ProbeAll.

(* ================================================================== *)
(** ** The primitives on sample inputs *)

Example take_ex : Py.take 3 "abcdef" = "abc".
Proof. reflexivity. Qed.

Example lower_ex : Py.lower "Report.PDF" = "report.pdf".
Proof. reflexivity. Qed.

Example endswith_ex :
  Py.endswith "report.pdf" ".pdf" = true /\ Py.endswith "report.PDF" ".pdf" = false
  /\ Py.endswith "pdf" ".pdf" = false.
Proof. repeat split; reflexivity. Qed.

Example replace_ex :
  Py.replace (String "a" (String Py.nl_char (String Py.nl_char "b"))) Py.nl "<br/>"
  = "a<br/><br/>b".
Proof. reflexivity. Qed.

Example replace_multi_ex : Py.replace "xababy" "ab" "-" = "x--y".
Proof. reflexivity. Qed.

Example path_join_ex :
  Py.path_join "/mnt/data" "r.pdf" = "/mnt/data/r.pdf"
  /\ Py.path_join "/mnt/data" "/etc/r.pdf" = "/etc/r.pdf".
Proof. split; reflexivity. Qed.

Example resolve_ex :
  Py.resolve "/mnt/data/../x/./y.pdf" = ["mnt"; "x"; "y.pdf"].
Proof. reflexivity. Qed.

Example located_inside_ex :
  Py.located_inside "/mnt/data" "/mnt/data/a/b.pdf" = true
  /\ Py.located_inside "/mnt/data" "/mnt/data/../b.pdf" = false
  /\ Py.located_inside "/mnt/data" "/mnt/data" = false.
Proof. repeat split; reflexivity. Qed.

(* ================================================================== *)
(** ** Facts about the string primitives *)

Section PyFacts.

Lemma append_nil_r (s : string) : s ++ EmptyString = s.
Proof. induction s as [|c s IH]; simpl; [reflexivity | now rewrite IH]. Qed.

Lemma append_assoc (a b c : string) : (a ++ b) ++ c = a ++ (b ++ c).
Proof. induction a as [|x a IH]; simpl; [reflexivity | now rewrite IH]. Qed.

Lemma length_append (a b : string) :
  String.length (a ++ b) = String.length a + String.length b.
Proof. induction a as [|x a IH]; simpl; [reflexivity | now rewrite IH]. Qed.

(** [s[:n]] has at most [n] characters and is an initial part of [s]. *)
Lemma take_length (n : nat) (s : string) : String.length (Py.take n s) <= n.
Proof.
  revert s; induction n as [|n IH]; intros [|c s]; simpl; try lia.
  specialize (IH s); lia.
Qed.

Lemma take_prefix (n : nat) (s : string) : exists r, s = Py.take n s ++ r.
Proof.
  revert s; induction n as [|n IH]; intros s.
  - exists s. destruct s; reflexivity.
  - destruct s as [|c s].
    + exists EmptyString. reflexivity.
    + destruct (IH s) as [r Hr]. exists r. simpl. now rewrite <- Hr.
Qed.

Lemma take_all (n : nat) (s : string) :
  String.length s <= n -> Py.take n s = s.
Proof.
  revert s; induction n as [|n IH]; intros [|c s]; simpl; intros H;
    try reflexivity; try lia.
  rewrite IH by lia. reflexivity.
Qed.

(** [endswith] decides the suffix relation. *)
Lemma endswith_self (s : string) : Py.endswith s s = true.
Proof.
  destruct s as [|c s]; [reflexivity|].
  cbn [Py.endswith]. now rewrite String.eqb_refl.
Qed.

Lemma endswith_app (p suf : string) : Py.endswith (p ++ suf) suf = true.
Proof.
  induction p as [|c p IH].
  - apply endswith_self.
  - change (String c p ++ suf) with (String c (p ++ suf)).
    cbn [Py.endswith]. destruct (String.eqb _ _); [reflexivity | exact IH].
Qed.

Lemma endswith_inv (s suf : string) :
  Py.endswith s suf = true -> exists p, s = p ++ suf.
Proof.
  induction s as [|c s IH]; cbn [Py.endswith].
  - destruct (String.eqb_spec EmptyString suf) as [<-|_]; [|discriminate].
    intros _. exists EmptyString. reflexivity.
  - destruct (String.eqb_spec (String c s) suf) as [<-|_].
    + intros _. exists EmptyString. reflexivity.
    + intros H. destruct (IH H) as [p ->]. exists (String c p). reflexivity.
Qed.

Lemma endswith_spec (s suf : string) :
  Py.endswith s suf = true <-> exists p, s = p ++ suf.
Proof.
  split; [apply endswith_inv | intros [p ->]; apply endswith_app].
Qed.

Lemma lower_app (a b : string) : Py.lower (a ++ b) = Py.lower a ++ Py.lower b.
Proof. induction a as [|c a IH]; simpl; [reflexivity | now rewrite IH]. Qed.

Lemma lower_app_inv (s a b : string) :
  Py.lower s = a ++ b ->
  exists s1 s2, s = s1 ++ s2 /\ Py.lower s1 = a /\ Py.lower s2 = b.
Proof.
  revert s; induction a as [|c a IH]; intros s H.
  - exists EmptyString, s. auto.
  - destruct s as [|d s]; simpl in H; [discriminate|].
    injection H as Hc Hs. destruct (IH s Hs) as (s1 & s2 & -> & <- & <-).
    exists (String d s1), s2. simpl. rewrite Hc. auto.
Qed.

(** Lower-casing never produces or removes a path separator. *)
Lemma lower_char_sep (c : ascii) :
  Py.lower_char c = "/"%char -> c = "/"%char.
Proof.
  destruct c as [[] [] [] [] [] [] [] []]; vm_compute; intros H;
    first [reflexivity | discriminate H].
Qed.

End PyFacts.

(* ================================================================== *)
(** ** Filename resolution *)

Section FilenameResolution.

Import Report.

Lemma suffix_by_length (a b c d : string) :
  a ++ b = c ++ d -> String.length b = String.length d -> b = d.
Proof.
  revert c; induction a as [|x a IH]; intros c H L.
  - destruct c as [|y c]; [exact H|].
    simpl in H. subst b. simpl in L. rewrite length_append in L. lia.
  - destruct c as [|y c].
    + simpl in H. subst d. simpl in L. rewrite length_append in L. lia.
    + simpl in H. injection H as _ H. exact (IH c H L).
Qed.

Lemma lower_length (s : string) : String.length (Py.lower s) = String.length s.
Proof. induction s as [|c s IH]; simpl; [reflexivity | now rewrite IH]. Qed.

(** The test of line 122 holds exactly when the name is some prefix
    followed by a casing variant of [.pdf]. *)
Lemma pdf_test_spec (name : string) :
  Py.endswith (Py.lower name) ".pdf" = true <->
  exists p e, name = p ++ e /\ Py.lower e = ".pdf".
Proof.
  rewrite endswith_spec. split.
  - intros [q H]. destruct (lower_app_inv _ _ _ H) as (s1 & s2 & -> & _ & H2).
    exists s1, s2. auto.
  - intros (p & e & -> & H). exists (Py.lower p). now rewrite lower_app, H.
Qed.

Lemma safe_name_some (payload : ReportRequest) (f : string) :
  filename payload = Some f -> f <> EmptyString ->
  safe_name payload =
    if Py.endswith (Py.lower f) ".pdf" then f else f ++ ".pdf".
Proof.
  intros Hf Hne. unfold safe_name. rewrite Hf.
  destruct f as [|c f]; [congruence|]. cbn [Py.truthy].
  destruct (Py.endswith _ _); reflexivity.
Qed.

Lemma safe_name_default (payload : ReportRequest) :
  filename payload = None \/ filename payload = Some EmptyString ->
  safe_name payload = default_filename.
Proof.
  intros [H|H]; unfold safe_name; rewrite H; reflexivity.
Qed.

(** The resolved name always passes the extension test. *)
Lemma safe_name_has_extension (payload : ReportRequest) :
  Py.endswith (Py.lower (safe_name payload)) ".pdf" = true.
Proof.
  unfold safe_name.
  set (name := match filename payload with
               | Some f => if Py.truthy f then f else default_filename
               | None => default_filename
               end).
  destruct (Py.endswith (Py.lower name) ".pdf") eqn:E; cbn [negb].
  - exact E.
  - rewrite lower_app. apply endswith_app.
Qed.

(** C4, as the code has it: an absent or empty [filename] resolves to
    the default name; any other [filename] resolves to itself when it
    ends in [.pdf] in some letter casing, and to itself followed by
    [.pdf] otherwise.  So [report] resolves to [report.pdf], with a
    path ending in [report.pdf], and [report.pdf] is left as it is. *)
Theorem safe_name_resolution (payload : ReportRequest) :
  match filename payload with
  | None => safe_name payload = default_filename
  | Some EmptyString => safe_name payload = default_filename
  | Some f =>
      ((exists p e, f = p ++ e /\ Py.lower e = ".pdf") /\ safe_name payload = f)
      \/ (~ (exists p e, f = p ++ e /\ Py.lower e = ".pdf")
          /\ safe_name payload = f ++ ".pdf")
  end
  /\ safe_name (with_filename (Some "report")) = "report.pdf"
  /\ Py.endswith (file_path (with_filename (Some "report"))) "report.pdf" = true
  /\ safe_name (with_filename (Some "report.pdf")) = "report.pdf".
Proof.
  split; [|repeat split; reflexivity].
  destruct (filename payload) as [f|] eqn:Hf.
  - destruct f as [|c f].
    + apply safe_name_default. now right.
    + rewrite (safe_name_some payload _ Hf) by discriminate.
      destruct (Py.endswith (Py.lower (String c f)) ".pdf") eqn:E.
      * left. split; [now apply pdf_test_spec | reflexivity].
      * right. split; [|reflexivity].
        intros H. apply pdf_test_spec in H. congruence.
  - apply safe_name_default. now left.
Qed.

(** C4, counterexample: for [report.PDF] the literal reading appends
    the extension, the code does not. *)
Lemma safe_name_not_literal_suffix_rule :
  Py.endswith "report.PDF" ".pdf" = false
  /\ spec_resolved_name (Some "report.PDF") = "report.PDF.pdf"
  /\ safe_name (with_filename (Some "report.PDF")) = "report.PDF"
  /\ safe_name (with_filename (Some "report.PDF"))
     <> spec_resolved_name (Some "report.PDF").
Proof. repeat split; try reflexivity. discriminate. Qed.

(** C9: a filename that ends in [.pdf] in any letter casing is kept as
    it is -- nothing is appended -- so unless that ending is the
    lower-case [.pdf] itself, the resolved name does not end in
    lower-case [.pdf]. *)
Theorem safe_name_extension_any_case
    (payload : ReportRequest) (f p e : string) :
  filename payload = Some f ->
  f = p ++ e ->
  Py.lower e = ".pdf" ->
  safe_name payload = f
  /\ (e <> ".pdf" -> Py.endswith (safe_name payload) ".pdf" = false).
Proof.
  intros Hf Hpe He.
  assert (Hne : f <> EmptyString).
  { subst f. intros H. apply (f_equal String.length) in H.
    rewrite length_append, <- (lower_length e), He in H. simpl in H. lia. }
  assert (Hs : safe_name payload = f).
  { rewrite (safe_name_some payload f Hf Hne).
    replace (Py.endswith (Py.lower f) ".pdf") with true; [reflexivity|].
    symmetry. apply pdf_test_spec. eauto. }
  split; [exact Hs|].
  intros Hcase. rewrite Hs.
  destruct (Py.endswith f ".pdf") eqn:E; [|reflexivity].
  exfalso. apply Hcase.
  apply endswith_inv in E. destruct E as [q Hq].
  apply (suffix_by_length p e q ".pdf"); [congruence|].
  rewrite <- (lower_length e), He. reflexivity.
Qed.

Lemma safe_name_extension_any_case_witness :
  safe_name (with_filename (Some "report.PDF")) = "report.PDF"
  /\ Py.endswith (safe_name (with_filename (Some "report.PDF"))) ".pdf" = false.
Proof.
  destruct (safe_name_extension_any_case
              (with_filename (Some "report.PDF")) "report.PDF" "report" ".PDF"
              eq_refl eq_refl eq_refl) as [H1 H2].
  split; [exact H1 | apply H2; discriminate].
Defined.

End FilenameResolution.

(* ================================================================== *)
(** ** The content list *)

Section Content.

Import Report.
Local Open Scope all_scope.

Lemma pages_to_add_pos (payload : ReportRequest) :
  exists k, Py.range_len (pages_to_add payload) = S k.
Proof.
  unfold Py.range_len, pages_to_add, Py.max.
  exists (Z.to_nat (Z.max (pages payload - 1) 1) - 1). lia.
Qed.

Lemma new_paragraph_ok pf text style w :
  paragraph_init pf text style = None ->
  new_paragraph pf text style w = (inr (Paragraph text style), w).
Proof. intros H. unfold new_paragraph, ExecAll.bind. now rewrite H. Qed.

Lemma new_paragraph_raises pf text style w e :
  paragraph_init pf text style = Some e ->
  new_paragraph pf text style w = (inl e, w).
Proof. intros H. unfold new_paragraph, ExecAll.bind. now rewrite H. Qed.

(** The loop of lines 117-119, when the section paragraph can be
    built: [n] rounds append [n] copies of block and break. *)
Lemma loop_ok pf payload (n : nat) (acc : list Flowable) (w : World) :
  paragraph_init pf (section_html payload) body_style = None ->
  ExecAll.for_range n
    (fun content =>
       p <- new_paragraph pf (section_html payload) body_style ;;
       ExecAll.ret ((content ++ [p]) ++ [PageBreak])%list)
    acc w
  = (inr (acc ++ List.concat (repeat [section_block payload; PageBreak] n))%list, w).
Proof.
  intros H. revert acc. induction n as [|n IH]; intros acc; simpl.
  - unfold ExecAll.ret. now rewrite app_nil_r.
  - unfold ExecAll.bind at 1. unfold ExecAll.bind at 1.
    rewrite (new_paragraph_ok _ _ _ _ H). cbn [ExecAll.ret].
    rewrite IH. unfold section_block. now rewrite <- !app_assoc.
Qed.

Lemma build_content_ok pf payload w :
  paragraph_init pf (intro_text payload) title_style = None ->
  paragraph_init pf (section_html payload) body_style = None ->
  build_content pf payload w = (inr (content_of payload), w).
Proof.
  intros Hi Hs. unfold build_content, ExecAll.bind at 1.
  rewrite (new_paragraph_ok _ _ _ _ Hi).
  rewrite (loop_ok _ _ _ _ _ Hs). reflexivity.
Qed.

Lemma build_content_title_raises pf payload w e :
  paragraph_init pf (intro_text payload) title_style = Some e ->
  build_content pf payload w = (inl e, w).
Proof.
  intros Hi. unfold build_content, ExecAll.bind at 1.
  now rewrite (new_paragraph_raises _ _ _ _ _ Hi).
Qed.

Lemma build_content_section_raises pf payload w e :
  paragraph_init pf (intro_text payload) title_style = None ->
  paragraph_init pf (section_html payload) body_style = Some e ->
  build_content pf payload w = (inl e, w).
Proof.
  intros Hi Hs. unfold build_content, ExecAll.bind at 1.
  rewrite (new_paragraph_ok _ _ _ _ Hi).
  destruct (pages_to_add_pos payload) as [k ->]. simpl.
  unfold ExecAll.bind at 1. unfold ExecAll.bind at 1.
  now rewrite (new_paragraph_raises _ _ _ _ _ Hs).
Qed.

(** Whatever the platform, a content list that gets built is
    [content_of], and building it leaves the file system alone. *)
Lemma build_content_inv pf payload w c w' :
  build_content pf payload w = (inr c, w') ->
  c = content_of payload /\ w' = w.
Proof.
  destruct (paragraph_init pf (intro_text payload) title_style) as [e|] eqn:Hi.
  - rewrite (build_content_title_raises _ _ _ _ Hi). discriminate.
  - destruct (paragraph_init pf (section_html payload) body_style) as [e|] eqn:Hs.
    + rewrite (build_content_section_raises _ _ _ _ Hi Hs). discriminate.
    + rewrite (build_content_ok _ _ _ Hi Hs). intros H. now inversion H.
Qed.

Lemma count_blocks_repeat (b : Flowable) (n : nat) :
  is_block b = true ->
  count_blocks (List.concat (repeat [b; PageBreak] n)) = n.
Proof.
  intros Hb. unfold count_blocks.
  induction n as [|n IH]; simpl; [reflexivity|].
  rewrite Hb. simpl. now rewrite IH.
Qed.

Lemma each_followed_repeat (t : string) (st : ParagraphStyle) (n : nat) :
  each_followed_by_break (List.concat (repeat [Paragraph t st; PageBreak] n)) = true.
Proof. induction n as [|n IH]; simpl; [reflexivity | exact IH]. Qed.

Lemma count_blocks_content_of (payload : ReportRequest) :
  count_blocks (content_of payload) = S (Py.range_len (pages_to_add payload)).
Proof.
  unfold content_of. change (count_blocks (title_block payload :: PageBreak :: ?l))
    with (S (count_blocks l)).
  now rewrite count_blocks_repeat.
Qed.

End Content.

(* ================================================================== *)
(** ** Runs of the report handler *)

Section Handler.

Import Report.
Local Open Scope all_scope.

Ltac step_try :=
  unfold generate_report, generate_report_try, os_makedirs;
  unfold ExecAll.bind at 1.

Lemma read_write_same (path : string) (f : File) (w : World) :
  read path (write path f w) = Some f.
Proof. unfold read, write. cbn. now rewrite String.eqb_refl. Qed.

Lemma generate_report_ok pf payload w :
  goes_through pf payload ->
  generate_report pf payload w
  = (inr (mkResult "ok" (file_path payload)),
     write (file_path payload) (Document (content_of payload))
           (add_directory out_dir w)).
Proof.
  intros (Him & Hi & Hs & Hm & Hb). step_try.
  rewrite Him. cbn [ExecAll.attempt ExecAll.ret].
  unfold ExecAll.bind at 1. rewrite (build_content_ok _ _ _ Hi Hs).
  unfold ExecAll.bind, build. rewrite Hm. cbn. rewrite Hb. reflexivity.
Qed.

Lemma generate_report_raises pf payload w t :
  raises pf payload t ->
  exists w', generate_report pf payload w = (inl (except_clause t), w').
Proof.
  intros [Him | Him Hi | Him Hi Hs | Him Hi Hs Hm | Him Hi Hs Hm Hb]; step_try;
    rewrite Him; cbn [ExecAll.attempt ExecAll.ret ExecAll.raise].
  - exists w. reflexivity.
  - unfold ExecAll.bind at 1. rewrite (build_content_title_raises _ _ _ _ Hi).
    exists w. reflexivity.
  - unfold ExecAll.bind at 1. rewrite (build_content_section_raises _ _ _ _ Hi Hs).
    exists w. reflexivity.
  - unfold ExecAll.bind at 1. rewrite (build_content_ok _ _ _ Hi Hs).
    unfold ExecAll.bind. rewrite Hm. cbn.
    exists w. reflexivity.
  - unfold ExecAll.bind at 1. rewrite (build_content_ok _ _ _ Hi Hs).
    unfold ExecAll.bind, build. rewrite Hm. cbn. rewrite Hb.
    eexists. reflexivity.
Qed.



(** C1, as the code has it: for [pages] from 1 to 200, a run in which
    no outside call raises -- the imports, the two paragraph
    constructors, the directory creation, the write -- raises nothing
    and hands the assembler the title block and [max(pages-1,1)]
    copies of the section block -- that many plus one content blocks
    in all -- each with a page break right after it; for [pages = 1]
    the section block is there exactly once. *)
Theorem generate_report_blocks pf payload w :
  (1 <= pages payload <= 200)%Z ->
  goes_through pf payload ->
  exists (n : nat) (content : list Flowable) (w' : World),
    generate_report pf payload w = (inr (mkResult "ok" (file_path payload)), w')
    /\ read (file_path payload) w' = Some (Document content)
    /\ Z.of_nat n = Z.max (pages payload - 1) 1
    /\ content = title_block payload :: PageBreak ::
                 List.concat (repeat [section_block payload; PageBreak] n)
    /\ Z.of_nat (count_blocks content) = (Z.max (pages payload - 1) 1 + 1)%Z
    /\ (2 <= Z.of_nat (count_blocks content) <= 200)%Z
    /\ each_followed_by_break content = true
    /\ (pages payload = 1%Z -> n = 1).
Proof.
  intros Hr Hg.
  exists (Py.range_len (pages_to_add payload)), (content_of payload).
  eexists. split; [apply (generate_report_ok _ _ _ Hg)|].
  assert (Hn : Z.of_nat (Py.range_len (pages_to_add payload))
               = Z.max (pages payload - 1) 1).
  { unfold Py.range_len, pages_to_add, Py.max. lia. }
  rewrite count_blocks_content_of.
  split; [apply read_write_same|]. split; [exact Hn|]. split; [reflexivity|].
  split; [lia|]. split; [lia|]. split.
  - unfold content_of, title_block, section_block.
    cbn [each_followed_by_break]. apply each_followed_repeat.
  - intros H1. apply Nat2Z.inj. rewrite Hn, H1. reflexivity.
Qed.

Lemma generate_report_blocks_witness :
  exists (n : nat) (content : list Flowable) (w' : World),
    generate_report healthy (with_pages 1) empty_world
    = (inr (mkResult "ok" (file_path (with_pages 1))), w')
    /\ read (file_path (with_pages 1)) w' = Some (Document content)
    /\ Z.of_nat n = Z.max (pages (with_pages 1) - 1) 1
    /\ content = title_block (with_pages 1) :: PageBreak ::
                 List.concat (repeat [section_block (with_pages 1); PageBreak] n)
    /\ Z.of_nat (count_blocks content) = (Z.max (pages (with_pages 1) - 1) 1 + 1)%Z
    /\ (2 <= Z.of_nat (count_blocks content) <= 200)%Z
    /\ each_followed_by_break content = true
    /\ (pages (with_pages 1) = 1%Z -> n = 1).
Proof.
  apply (generate_report_blocks healthy (with_pages 1) empty_world).
  - simpl. lia.
  - repeat split; reflexivity.
Defined.

(** C1, counterexample: requests with [pages] in range on which the
    handler raises all the same -- the output directory cannot be
    written, or the paragraph constructor turns the markup down. *)
Lemma generate_report_raises_in_range :
  (1 <= pages (with_pages 5) <= 200)%Z
  /\ validate (mkBody None (Some 5%Z) None None None) = Some (with_pages 5)
  /\ fst (generate_report read_only (with_pages 5) empty_world)
     = inl (HTTPException 500 "Permission denied")
  /\ fst (generate_report strict_markup (with_pages 5) empty_world)
     = inl (HTTPException 500 "paraparser: syntax error").
Proof. split; [simpl; lia|]. repeat split; reflexivity. Qed.

(** C7, as the code has it: whichever outside call of the [try] block
    is the first to raise -- an import, the construction of a
    paragraph, the directory creation or the file write -- if what it
    raises derives from [Exception], the handler raises
    [HTTPException] with status 500 and the text of that exception as
    detail, and the route answers with that server error. *)
Theorem generate_report_converts_exceptions pf payload w e :
  raises pf payload (Ordinary e) ->
  (exists w',
      generate_report pf payload w = (inl (HTTPException 500 (exn_str e)), w'))
  /\ (forall b, validate b = Some payload ->
       fst (post_generate_report pf b w) = ServerError 500 (exn_str e)).
Proof.
  intros H. destruct (generate_report_raises _ _ w _ H) as (w' & E).
  split; [exists w'; exact E|].
  intros b Hb. unfold post_generate_report. rewrite Hb, E. reflexivity.
Qed.

Lemma generate_report_converts_exceptions_witness :
  raises read_only default_request (Ordinary permission_denied)
  /\ exists w',
      generate_report read_only default_request empty_world
      = (inl (HTTPException 500 "Permission denied"), w').
Proof.
  assert (H : raises read_only default_request (Ordinary permission_denied))
    by (apply raises_build; reflexivity).
  split; [exact H|].
  exact (proj1 (generate_report_converts_exceptions
                  read_only default_request empty_world _ H)).
Defined.

(** C7, counterexample: a write interrupted from the keyboard raises
    [KeyboardInterrupt], which the [except Exception] clause does not
    catch: it leaves the handler as it is, not as a server error. *)
Lemma generate_report_lets_interrupt_through :
  raises interrupted default_request (BaseOnly keyboard_interrupt)
  /\ fst (generate_report interrupted default_request empty_world)
     = inl (Escaped keyboard_interrupt)
  /\ fst (generate_report interrupted default_request empty_world)
     <> inl (HTTPException 500 (base_str keyboard_interrupt))
  /\ fst (post_generate_report interrupted (mkBody None None None None None)
            empty_world)
     = Crash (BaseOnly keyboard_interrupt).
Proof.
  split; [apply raises_build; reflexivity|].
  repeat split; try reflexivity. discriminate.
Qed.

End Handler.

(* ================================================================== *)
(** ** Validation at the boundary *)

Section Boundary.

Import Report.

(** C3: a body whose [pages] lies outside 1..200 -- 0 and 201 among
    them -- does not validate; the route answers with a client error
    without consulting the platform, and the file system is as it
    was: the handler has not run. *)
Theorem out_of_range_pages_rejected pf b w n :
  body_pages b = Some n ->
  (n < 1 \/ 200 < n)%Z ->
  validate b = None
  /\ post_generate_report pf b w = (ValidationError, w)
  /\ (400 <= response_code (fst (post_generate_report pf b w)) < 500)%Z.
Proof.
  intros Hn Hout.
  assert (Hv : validate b = None).
  { unfold validate. rewrite Hn.
    replace (pages_ok n) with false; [reflexivity|].
    unfold pages_ok. symmetry. apply andb_false_iff.
    destruct Hout; [left; apply Z.leb_gt | right; apply Z.leb_gt]; lia. }
  unfold post_generate_report. rewrite Hv. simpl. repeat split; lia.
Qed.

Lemma out_of_range_pages_rejected_witness :
  post_generate_report healthy (mkBody None (Some 0%Z) None None None) empty_world
  = (ValidationError, empty_world)
  /\ post_generate_report healthy (mkBody None (Some 201%Z) None None None) empty_world
     = (ValidationError, empty_world).
Proof.
  split.
  - apply (out_of_range_pages_rejected healthy
             (mkBody None (Some 0%Z) None None None) empty_world 0%Z);
      [reflexivity | lia].
  - apply (out_of_range_pages_rejected healthy
             (mkBody None (Some 201%Z) None None None) empty_world 201%Z);
      [reflexivity | lia].
Defined.

End Boundary.

(* ================================================================== *)
(** ** Line breaks of the section body *)

Section LineBreaks.

Import Report.

Lemma replace_nl_expand (s : string) :
  Py.replace s Py.nl "<br/>" = br_expand s.
Proof.
  unfold Py.replace. induction s as [|c s IH]; [reflexivity|].
  cbn [Py.replace_from br_expand]. unfold Py.nl at 1. cbn [String.prefix].
  destruct (ascii_dec Py.nl_char c) as [<-|Hne].
  - rewrite Ascii.eqb_refl.
    replace (String.prefix EmptyString s) with true by (now destruct s).
    change (String.length Py.nl - 1) with 0. now rewrite IH.
  - destruct (Ascii.eqb_spec c Py.nl_char) as [->|_]; [congruence|].
    now rewrite IH.
Qed.

Lemma br_expand_no_newline (s : string) :
  Py.contains_char Py.nl_char (br_expand s) = false.
Proof.
  induction s as [|c s IH]; [reflexivity|]. cbn [br_expand].
  destruct (Ascii.eqb_spec c Py.nl_char) as [->|Hne].
  - cbn. exact IH.
  - cbn [Py.contains_char]. rewrite IH.
    destruct (Ascii.eqb_spec Py.nl_char c) as [E|_]; [congruence | reflexivity].
Qed.

(** C5: the replacement of line 113 turns each newline of
    [section_body] into [<br/>] and keeps every other character, so
    what it yields has no newline left; that text is what the section
    markup carries between its fixed head and tail, and every block
    of body style handed to the assembler has exactly this markup. *)
Theorem section_body_line_breaks (payload : ReportRequest) :
  Py.replace (section_body payload) Py.nl "<br/>" = br_expand (section_body payload)
  /\ Py.contains_char Py.nl_char (Py.replace (section_body payload) Py.nl "<br/>")
     = false
  /\ section_html payload
     = (Py.nl ++ indent ++ "<b>" ++ section_title payload ++ "</b><br/><br/>"
        ++ Py.nl ++ indent)
       ++ br_expand (section_body payload) ++ (Py.nl ++ indent)
  /\ (forall pf w content w' t,
        build_content pf payload w = (inr content, w') ->
        In (Paragraph t body_style) content ->
        t = section_html payload).
Proof.
  split; [apply replace_nl_expand|].
  split; [rewrite replace_nl_expand; apply br_expand_no_newline|].
  split.
  - unfold section_html. rewrite replace_nl_expand.
    now rewrite !append_assoc.
  - intros pf w content w' t Hb Hin.
    apply build_content_inv in Hb. destruct Hb as [-> _].
    unfold content_of in Hin.
    destruct Hin as [H | [H | Hin]]; try discriminate H.
    apply in_concat in Hin. destruct Hin as (blk & Hblk & Ht).
    apply repeat_spec in Hblk. subst blk.
    destruct Ht as [H | [H | []]]; [|discriminate H].
    unfold section_block in H. now inversion H.
Qed.

End LineBreaks.

(* ================================================================== *)
(** ** Where the document is written *)

Section Paths.

Import Report.

Lemma split_sep_no_sep (q : string) :
  Py.contains_char "/" q = false -> Py.split_sep q = [q].
Proof.
  induction q as [|c q IH]; [reflexivity|]. cbn [Py.contains_char Py.split_sep].
  intros H. apply orb_false_iff in H. destruct H as [Hc Hq].
  rewrite Ascii.eqb_sym, Hc, (IH Hq). reflexivity.
Qed.

(** Appending text without a separator only lengthens the last
    component. *)
Lemma split_sep_app_last (p q : string) :
  Py.contains_char "/" q = false ->
  exists l y, Py.split_sep p = (l ++ [y])%list
              /\ Py.split_sep (p ++ q) = (l ++ [(y ++ q)%string])%list.
Proof.
  intros Hq. induction p as [|c p (l & y & Hp & Hpq)].
  - exists [], EmptyString. split; [reflexivity|]. apply (split_sep_no_sep _ Hq).
  - change (String c p ++ q) with (String c (p ++ q)). cbn [Py.split_sep].
    rewrite Hp, Hpq. destruct (Ascii.eqb c "/").
    + exists (EmptyString :: l), y. split; reflexivity.
    + destruct l as [|h t].
      * exists [], (String c y). split; reflexivity.
      * exists (String c h :: t), y. split; reflexivity.
Qed.



Lemma long_name_plain (y e : string) :
  String.length e = 4 -> Py.plain_name (y ++ e).
Proof.
  intros L. repeat split; intros H; apply (f_equal String.length) in H;
    rewrite length_append, L in H; simpl in H; lia.
Qed.

(** A casing variant of [.pdf] has four characters, none a separator. *)
Lemma pdf_variant_shape (e : string) :
  Py.lower e = ".pdf" ->
  String.length e = 4 /\ Py.contains_char "/" e = false.
Proof.
  intros H. split; [now rewrite <- lower_length, H|].
  destruct e as [|c1 [|c2 [|c3 [|c4 [|c5 e]]]]]; try discriminate H.
  simpl in H. injection H as H1 H2 H3 H4.
  cbn [Py.contains_char].
  repeat match goal with
  | |- context [Ascii.eqb "/" ?c] =>
      destruct (Ascii.eqb_spec "/"%char c) as [E|_];
      [subst c; vm_compute in H1, H2, H3, H4; discriminate|]
  end.
  reflexivity.
Qed.



Lemma file_path_relative (payload : ReportRequest) :
  Py.startswith (safe_name payload) "/" = false ->
  file_path payload = out_dir ++ "/" ++ safe_name payload.
Proof.
  intros H. unfold file_path, Py.path_join. rewrite H. reflexivity.
Qed.






End Paths.

(* ================================================================== *)
(** ** Runs of the health probe *)

Section ProbeRuns.

Import Probe.

(* The slices [[:50]] and [[:10]] are kept folded while the handler is
   run. *)
Local Arguments Py.take : simpl never.
Local Arguments firstn : simpl never.

(** Both [except] clauses end the probe normally. *)
Lemma probe_caught (i : Import) :
  Exec.try_except (probe_try i) probe_except initial = (inr tt, after_probe i).
Proof.
  unfold after_probe.
  destruct i as [e | [d|]]; cbn.
  - unfold probe_except. destruct (exn_class e); reflexivity.
  - unfold Exec.try_except, probe_try, Exec.bind, name_or_connected,
      check_collections, Exec.try_except, Exec.bind, Exec.call, probe_except.
    cbn. destruct (db_name d) as [|v|e]; cbn.
    + destruct (list_collection_names d); reflexivity.
    + destruct (list_collection_names d); reflexivity.
    + destruct (exn_class e); reflexivity.
  - reflexivity.
Qed.

Lemma test_database_returns (i : Import) (env : Environ) :
  test_database i env = inr (env_fields env (after_probe i)).
Proof.
  unfold test_database, Exec.bind. rewrite probe_caught. reflexivity.
Qed.

(** The [database] text by outcome, when every exception of the probe
    derives from [Exception]: a failing import leaves the not-found
    text (for [ImportError]) or an error text; an uninitialised handle
    leaves the not-initialised text; a handle whose attribute lookup
    or whose listing raises leaves an error text; only a handle that
    lists its collections is reported as working. *)
Lemma probe_status_table (i : Import) (env : Environ) :
  exists r,
    test_database i env = inr r
    /\ backend r = "✅ Running"
    /\ match i with
       | ImportRaises e =>
           match exn_class e with
           | ImportError => database r = msg_not_found
           | OtherException =>
               database r = msg_error ++ Py.take 50 (exn_str e)
           end
       | Imported None => database r = msg_not_initialized
       | Imported (Some d) =>
           match db_name d with
           | AttrRaises e =>
               match exn_class e with
               | ImportError => database r = msg_not_found
               | OtherException =>
                   database r = msg_error ++ Py.take 50 (exn_str e)
               end
           | _ =>
               match list_collection_names d with
               | inl e =>
                   database r = msg_connected_error ++ Py.take 50 (exn_str e)
               | inr _ => database r = msg_working
               end
           end
       end.
Proof.
  exists (env_fields env (after_probe i)).
  split; [apply test_database_returns|].
  unfold after_probe.
  destruct i as [e | [d|]].
  - split; [cbn; unfold probe_except; destruct (exn_class e); reflexivity|].
    cbn. unfold probe_except. destruct (exn_class e); reflexivity.
  - unfold Exec.try_except, probe_try, Exec.bind, name_or_connected,
      check_collections, Exec.try_except, Exec.bind, Exec.call, probe_except.
    cbn. destruct (db_name d) as [|v|e]; cbn.
    + destruct (list_collection_names d); split; reflexivity.
    + destruct (list_collection_names d); split; reflexivity.
    + destruct (exn_class e); split; reflexivity.
  - split; reflexivity.
Qed.

Lemma shown_text (text label : string) (e : Exn) :
  text = label ++ Py.take 50 (exn_str e) ->
  exists shown rest,
    text = label ++ shown
    /\ shown = Py.take 50 (exn_str e)
    /\ String.length shown <= 50
    /\ exn_str e = shown ++ rest.
Proof.
  intros H. destruct (take_prefix 50 (exn_str e)) as [rest Hrest].
  exists (Py.take 50 (exn_str e)), rest.
  repeat split; [exact H | apply take_length | exact Hrest].
Qed.

(** C8: in every response of GET /test, [collections] holds at most ten
    names -- the first ten the handle listed, or none -- and when the
    text of an exception is put into [database], what is put there is
    the first fifty characters of that text at most. *)
Theorem test_database_bounds (i : Import) (env : Environ) :
  exists r,
    test_database i env = inr r
    /\ List.length (collections r) <= 10
    /\ (collections r = []
        \/ exists d names,
             i = Imported (Some d)
             /\ list_collection_names d = inr names
             /\ collections r = firstn 10 names)
    /\ match embedded_error i with
       | Some (label, e) =>
           exists shown rest,
             database r = label ++ shown
             /\ shown = Py.take 50 (exn_str e)
             /\ String.length shown <= 50
             /\ exn_str e = shown ++ rest
       | None => In (database r) fixed_status
       end.
Proof.
  exists (env_fields env (after_probe i)).
  split; [apply test_database_returns|].
  unfold after_probe.
  destruct i as [e | [d|]].
  - cbn. unfold probe_except, outer_error.
    destruct (exn_class e); cbn.
    + split; [lia|]. split; [now left|]. right. right. now left.
    + split; [lia|]. split; [now left|].
      apply (shown_text _ msg_error e). reflexivity.
  - unfold Exec.try_except, probe_try, Exec.bind, name_or_connected,
      check_collections, Exec.try_except, Exec.bind, Exec.call, probe_except,
      embedded_error, outer_error.
    cbn.
    destruct (db_name d) as [|v|e]; cbn.
    + destruct (list_collection_names d) as [e|names] eqn:El; cbn.
      * split; [lia|]. split; [now left|].
        apply (shown_text _ msg_connected_error e). reflexivity.
      * split; [apply firstn_le_length|].
        split; [right; exists d, names; auto|]. now left.
    + destruct (list_collection_names d) as [e|names] eqn:El; cbn.
      * split; [lia|]. split; [now left|].
        apply (shown_text _ msg_connected_error e). reflexivity.
      * split; [apply firstn_le_length|].
        split; [right; exists d, names; auto|]. now left.
    + destruct (exn_class e); cbn.
      * split; [lia|]. split; [now left|]. right. right. now left.
      * split; [lia|]. split; [now left|].
        apply (shown_text _ msg_error e). reflexivity.
  - cbn. split; [lia|]. split; [now left|]. right. now left.
Qed.

(** C10, as the code has it: [database_url] and [database_name] of every
    response are one of the two texts Set / Not Set, chosen by whether the
    environment variable has a non-empty value, and by nothing else:
    what the probe had put there -- the configured text and the handle's
    name in the connected branch -- is overwritten whatever the probe's
    outcome. *)
Theorem test_database_environ_fields (i : Import) (env : Environ) :
  exists r,
    test_database i env = inr r
    /\ ((database_url r = Some msg_set
         /\ exists v, DATABASE_URL env = Some v /\ v <> EmptyString)
        \/ (database_url r = Some msg_not_set
            /\ (DATABASE_URL env = None \/ DATABASE_URL env = Some EmptyString)))
    /\ ((database_name r = Some msg_set
         /\ exists v, DATABASE_NAME env = Some v /\ v <> EmptyString)
        \/ (database_name r = Some msg_not_set
            /\ (DATABASE_NAME env = None \/ DATABASE_NAME env = Some EmptyString)))
    /\ match i with
       | Imported (Some d) =>
           database_url (after_probe i) = Some msg_configured
           /\ match db_name d with
              | AttrMissing => database_name (after_probe i) = Some msg_connected
              | AttrValue v => database_name (after_probe i) = Some v
              | AttrRaises _ => database_name (after_probe i) = None
              end
       | _ => database_url (after_probe i) = None
              /\ database_name (after_probe i) = None
       end.
Proof.
  exists (env_fields env (after_probe i)).
  split; [apply test_database_returns|].
  split; [|split].
  - cbn. destruct (DATABASE_URL env) as [[|c v]|]; cbn.
    + right. auto.
    + left. split; [reflexivity|]. eexists. split; [reflexivity | discriminate].
    + right. auto.
  - cbn. destruct (DATABASE_NAME env) as [[|c v]|]; cbn.
    + right. auto.
    + left. split; [reflexivity|]. eexists. split; [reflexivity | discriminate].
    + right. auto.
  - unfold after_probe. destruct i as [e | [d|]].
    + cbn. unfold probe_except. destruct (exn_class e); split; reflexivity.
    + unfold Exec.try_except, probe_try, Exec.bind, name_or_connected,
        check_collections, Exec.try_except, Exec.bind, Exec.call, probe_except.
      cbn. destruct (db_name d) as [|v|e]; cbn.
      * destruct (list_collection_names d); split; reflexivity.
      * destruct (list_collection_names d); split; reflexivity.
      * destruct (exn_class e); split; reflexivity.
    + split; reflexivity.
Qed.

(** C10, counterexample: two environments in which [DATABASE_URL] is
    present -- once empty, once not -- get different [database_url]
    texts from the same probe; presence alone does not decide. *)
Lemma database_url_not_by_presence :
  present (DATABASE_URL (mkEnviron (Some EmptyString) None)) = true
  /\ present (DATABASE_URL (mkEnviron (Some "mongodb://localhost") None)) = true
  /\ (exists r, test_database (Imported None) (mkEnviron (Some EmptyString) None)
                = inr r
                /\ database_url r = Some msg_not_set)
  /\ (exists r, test_database (Imported None)
                  (mkEnviron (Some "mongodb://localhost") None)
                = inr r
                /\ database_url r = Some msg_set)
  /\ msg_set <> msg_not_set.
Proof.
  split; [reflexivity|]. split; [reflexivity|].
  split; [eexists; split; reflexivity|].
  split; [eexists; split; reflexivity|]. discriminate.
Qed.

End ProbeRuns.

(* ================================================================== *)
(** ** Runs of the health probe when a call may raise anything *)

Section ProbeAllRuns.

Import Probe.

Local Arguments Py.take : simpl never.
Local Arguments firstn : simpl never.

(** On outcomes whose exceptions all derive from [Exception] the two
    readings of the handler agree. *)
Lemma test_database_of_import (i : Import) (env : Environ) :
  ProbeAll.test_database (ProbeAll.of_import i) env = test_database i env.
Proof.
  destruct i as [[[] msg] | [[nm ls]|]]; try reflexivity.
  destruct nm as [|v|[[] msg]]; destruct ls as [e'|names]; reflexivity.
Qed.

Lemma exception_derived_of_import (i : ProbeAll.Import) :
  ProbeAll.exception_derived i = true -> exists i0, i = ProbeAll.of_import i0.
Proof.
  destruct i as [[e|b] | [[nm ls]|]]; cbn; intros H; try discriminate H.
  - exists (ImportRaises e). reflexivity.
  - destruct nm as [|v|[e|b]]; destruct ls as [[e'|b']|names];
      cbn in H; try discriminate H.
    + exists (Imported (Some (mkDb AttrMissing (inl e')))). reflexivity.
    + exists (Imported (Some (mkDb AttrMissing (inr names)))). reflexivity.
    + exists (Imported (Some (mkDb (AttrValue v) (inl e')))). reflexivity.
    + exists (Imported (Some (mkDb (AttrValue v) (inr names)))). reflexivity.
    + exists (Imported (Some (mkDb (AttrRaises e) (inl e')))). reflexivity.
    + exists (Imported (Some (mkDb (AttrRaises e) (inr names)))). reflexivity.
  - exists (Imported None). reflexivity.
Qed.

(** C6, as the code has it: for every outcome of the probe in which
    whatever is raised derives from [Exception], GET /test raises
    nothing and returns its status object: a failing import leaves the
    not-found text (for [ImportError]) or an error text in [database];
    an uninitialised handle leaves the not-initialised text; a handle
    whose attribute lookup or whose listing raises leaves an error
    text; only a handle that lists its collections is reported as
    working. *)
Theorem test_database_returns_unless_base_exception
    (i : ProbeAll.Import) (env : Environ) :
  ProbeAll.exception_derived i = true ->
  exists i0 r,
    i = ProbeAll.of_import i0
    /\ ProbeAll.test_database i env = inr r
    /\ backend r = "✅ Running"
    /\ match i0 with
       | ImportRaises e =>
           match exn_class e with
           | ImportError => database r = msg_not_found
           | OtherException =>
               database r = msg_error ++ Py.take 50 (exn_str e)
           end
       | Imported None => database r = msg_not_initialized
       | Imported (Some d) =>
           match db_name d with
           | AttrRaises e =>
               match exn_class e with
               | ImportError => database r = msg_not_found
               | OtherException =>
                   database r = msg_error ++ Py.take 50 (exn_str e)
               end
           | _ =>
               match list_collection_names d with
               | inl e =>
                   database r = msg_connected_error ++ Py.take 50 (exn_str e)
               | inr _ => database r = msg_working
               end
           end
       end.
Proof.
  intros H. destruct (exception_derived_of_import i H) as [i0 ->].
  destruct (probe_status_table i0 env) as (r & Hr & Hb & Ht).
  exists i0, r. rewrite test_database_of_import. auto.
Qed.

Lemma test_database_returns_unless_base_exception_witness :
  exists i0 r,
    ProbeAll.ImportRaises (Ordinary (mkExn ImportError "No module named 'database'"))
    = ProbeAll.of_import i0
    /\ ProbeAll.test_database
         (ProbeAll.ImportRaises
            (Ordinary (mkExn ImportError "No module named 'database'")))
         (mkEnviron None None) = inr r
    /\ backend r = "✅ Running".
Proof.
  destruct (test_database_returns_unless_base_exception
              (ProbeAll.ImportRaises
                 (Ordinary (mkExn ImportError "No module named 'database'")))
              (mkEnviron None None) eq_refl)
    as (i0 & r & H1 & H2 & H3 & _).
  exists i0, r. auto.
Defined.

(** C6, counterexample: an import, or a listing, interrupted from the
    keyboard raises [KeyboardInterrupt]; neither [except] clause
    catches it, and the handler raises it instead of returning. *)
Lemma test_database_lets_interrupt_through :
  ProbeAll.test_database (ProbeAll.ImportRaises (BaseOnly keyboard_interrupt))
                         (mkEnviron None None)
  = inl (Escaped keyboard_interrupt)
  /\ ProbeAll.test_database
       (ProbeAll.Imported (Some ProbeAll.interrupted_listing))
       (mkEnviron None None)
     = inl (Escaped keyboard_interrupt)
  /\ forall r,
       ProbeAll.test_database (ProbeAll.ImportRaises (BaseOnly keyboard_interrupt))
                              (mkEnviron None None)
       <> inr r.
Proof. repeat split; try reflexivity. intros r. discriminate. Qed.

End ProbeAllRuns.

(* ================================================================== *)
(** ** The handlers on sample inputs *)

Section Samples.

Import Report Probe.

Example default_report_blocks :
  count_blocks (content_of default_request) = 80
  /\ List.length (content_of default_request) = 160.
Proof. split; reflexivity. Qed.

Example one_page_report :
  content_of (with_pages 1)
  = [title_block (with_pages 1); PageBreak;
     section_block (with_pages 1); PageBreak].
Proof. reflexivity. Qed.

Example default_report_run :
  post_generate_report healthy (mkBody None None None None None) empty_world
  = (Ok (mkResult "ok" "/mnt/data/Web_Seminar_Report_80Pages.pdf"),
     mkWorld ["/mnt/data"]
       [("/mnt/data/Web_Seminar_Report_80Pages.pdf",
         Document (content_of default_request))]).
Proof. reflexivity. Qed.

Example null_filename_accepted :
  validate (mkBody None (Some 200%Z) None None (Some None))
  = Some (mkReportRequest default_title 200 default_section_title
            default_section_body None).
Proof. reflexivity. Qed.

Example probe_without_module :
  test_database (ImportRaises (mkExn ImportError "No module named 'database'"))
                (mkEnviron None None)
  = inr (mkResponse "✅ Running" msg_not_found (Some msg_not_set)
           (Some msg_not_set) "Not Connected" []).
Proof. reflexivity. Qed.

Example probe_listing_twelve :
  test_database
    (Imported (Some (listing ["a"; "b"; "c"; "d"; "e"; "f";
                              "g"; "h"; "i"; "j"; "k"; "l"])))
    (mkEnviron (Some "mongodb://localhost") (Some "reports"))
  = inr (mkResponse "✅ Running" msg_working (Some msg_set) (Some msg_set)
           "Connected" ["a"; "b"; "c"; "d"; "e"; "f"; "g"; "h"; "i"; "j"]).
Proof. reflexivity. Qed.

End Samples.

(* ================================================================== *)
(** ** Further properties of the report handler *)

Section ReportProperties.

Import Report.
Local Open Scope all_scope.

(** X2: a run in which the import or a paragraph constructor raises --
    whatever it raises -- has not touched the file system: the output
    directory is created only once the content list is complete, and
    nothing is written. *)
Theorem layout_failure_leaves_world pf payload w t :
  import_reportlab pf = Some t
  \/ (import_reportlab pf = None
      /\ paragraph_init pf (intro_text payload) title_style = Some t)
  \/ (import_reportlab pf = None
      /\ paragraph_init pf (intro_text payload) title_style = None
      /\ paragraph_init pf (section_html payload) body_style = Some t) ->
  generate_report pf payload w = (inl (except_clause t), w).
Proof.
  intros [Him | [(Him & Hi) | (Him & Hi & Hs)]];
    unfold generate_report, generate_report_try, os_makedirs;
    unfold ExecAll.bind at 1; rewrite Him;
    cbn [ExecAll.attempt ExecAll.ret ExecAll.raise].
  - reflexivity.
  - unfold ExecAll.bind at 1. now rewrite (build_content_title_raises _ _ _ _ Hi).
  - unfold ExecAll.bind at 1.
    now rewrite (build_content_section_raises _ _ _ _ Hi Hs).
Qed.

Lemma layout_failure_leaves_world_witness :
  generate_report strict_markup default_request
    (mkWorld ["/srv"] [("/srv/old.pdf", Partial)])
  = (inl (HTTPException 500 "paraparser: syntax error"),
     mkWorld ["/srv"] [("/srv/old.pdf", Partial)]).
Proof.
  apply (layout_failure_leaves_world strict_markup default_request
           (mkWorld ["/srv"] [("/srv/old.pdf", Partial)])
           (Ordinary markup_error)).
  right. left. split; reflexivity.
Defined.

End ReportProperties.

(* ================================================================== *)
(** ** Further properties of names, paths and markup *)

Section NameProperties.

Import Report.

Lemma safe_name_nonempty (payload : ReportRequest) :
  safe_name payload <> EmptyString.
Proof.
  intros H. pose proof (safe_name_has_extension payload) as E.
  rewrite H in E. discriminate E.
Qed.

(** X5: resolving is idempotent: a resolved filename, supplied as the
    [filename] of any request, resolves to itself -- the extension is
    not appended a second time. *)
Theorem safe_name_idempotent (payload : ReportRequest)
    (t : string) (n : Z) (st sb : string) :
  safe_name (mkReportRequest t n st sb (Some (safe_name payload)))
  = safe_name payload.
Proof.
  rewrite (safe_name_some (mkReportRequest t n st sb (Some (safe_name payload)))
             (safe_name payload) eq_refl (safe_name_nonempty payload)).
  now rewrite safe_name_has_extension.
Qed.

Lemma safe_name_last_component_ext (payload : ReportRequest) :
  exists l y e,
    Py.split_sep (safe_name payload) = (l ++ [(y ++ e)%string])%list
    /\ Py.lower e = ".pdf".
Proof.
  destruct (proj1 (pdf_test_spec _) (safe_name_has_extension payload))
    as (p & e & Hpe & He).
  destruct (pdf_variant_shape e He) as [L Hsep].
  destruct (split_sep_app_last p e Hsep) as (l & y & _ & Hs).
  exists l, y, e. rewrite Hpe. auto.
Qed.

(** X6: whatever the filename, the path handed to the document writer
    ends in a component that names a file: it is not empty, not [.] and
    not [..], and it ends in [.pdf] in some letter casing.  The handler
    never writes to a path with a trailing separator. *)
Theorem file_path_names_a_file (payload : ReportRequest) :
  exists dirs y e,
    Py.split_sep (file_path payload) = (dirs ++ [(y ++ e)%string])%list
    /\ Py.lower e = ".pdf"
    /\ Py.plain_name (y ++ e).
Proof.
  destruct (safe_name_last_component_ext payload) as (l & y & e & Hs & He).
  assert (Hp : Py.plain_name (y ++ e))
    by (apply long_name_plain; now destruct (pdf_variant_shape e He)).
  destruct (Py.startswith (safe_name payload) "/") eqn:E.
  - unfold file_path, Py.path_join. rewrite E. exists l, y, e. auto.
  - rewrite (file_path_relative _ E).
    change (Py.split_sep (out_dir ++ "/" ++ safe_name payload))
      with (EmptyString :: "mnt" :: "data" :: Py.split_sep (safe_name payload)).
    rewrite Hs. exists (EmptyString :: "mnt" :: "data" :: l), y, e. auto.
Qed.

(** X7: an absolute filename takes the output directory out of the
    path altogether: the path written is the resolved filename itself,
    whichever directory it is joined to. *)
Theorem absolute_filename_replaces_directory (payload : ReportRequest) (f : string) :
  filename payload = Some f ->
  Py.startswith f "/" = true ->
  file_path payload = safe_name payload
  /\ (file_path payload = f \/ file_path payload = f ++ ".pdf")
  /\ forall dir, Py.path_join dir (safe_name payload) = safe_name payload.
Proof.
  intros Hf Habs.
  destruct f as [|c f]; [discriminate Habs|].
  assert (Hc : c = "/"%char).
  { unfold Py.startswith in Habs. cbn [String.prefix] in Habs.
    destruct (ascii_dec "/" c) as [<-|]; [reflexivity | discriminate Habs]. }
  subst c.
  assert (Hs : safe_name payload = String "/" f
               \/ safe_name payload = String "/" f ++ ".pdf").
  { rewrite (safe_name_some payload _ Hf) by discriminate.
    destruct (Py.endswith _ _); auto. }
  assert (Hj : forall dir, Py.path_join dir (safe_name payload) = safe_name payload).
  { intros dir. unfold Py.path_join.
    replace (Py.startswith (safe_name payload) "/") with true; [reflexivity|].
    destruct Hs as [-> | ->]; [now rewrite Habs|].
    unfold Py.startswith. cbn. now destruct (f ++ ".pdf"). }
  split; [apply Hj|]. split; [|exact Hj].
  unfold file_path. rewrite Hj. exact Hs.
Qed.

Lemma absolute_filename_replaces_directory_witness :
  file_path (with_filename (Some "/srv/www/index")) = "/srv/www/index.pdf"
  /\ Py.path_join "/var/tmp" (safe_name (with_filename (Some "/srv/www/index")))
     = "/srv/www/index.pdf".
Proof.
  destruct (absolute_filename_replaces_directory
              (with_filename (Some "/srv/www/index")) "/srv/www/index"
              eq_refl eq_refl) as (H1 & _ & H3).
  split; [rewrite H1; reflexivity | rewrite H3; reflexivity].
Defined.

Lemma br_expand_length (s : string) :
  String.length (br_expand s)
  = String.length s + 4 * Py.count_char Py.nl_char s.
Proof.
  induction s as [|c s IH]; [reflexivity|]. cbn [br_expand Py.count_char].
  rewrite (Ascii.eqb_sym Py.nl_char c).
  destruct (Ascii.eqb c Py.nl_char).
  - rewrite length_append, IH. simpl. lia.
  - simpl. rewrite IH. lia.
Qed.

Lemma br_expand_plain (s : string) :
  Py.contains_char Py.nl_char s = false -> br_expand s = s.
Proof.
  induction s as [|c s IH]; [reflexivity|]. cbn [Py.contains_char br_expand].
  intros H. apply orb_false_iff in H. destruct H as [Hc Hs].
  rewrite (Ascii.eqb_sym c Py.nl_char), Hc, (IH Hs). reflexivity.
Qed.

Lemma br_expand_app (a b : string) :
  br_expand (a ++ b) = br_expand a ++ br_expand b.
Proof.
  induction a as [|c a IH]; [reflexivity|].
  change (String c a ++ b) with (String c (a ++ b)). cbn [br_expand].
  rewrite IH. destruct (Ascii.eqb c Py.nl_char); [|reflexivity].
  now rewrite append_assoc.
Qed.

(** X8: the section markup grows by four characters for each newline
    of [section_body] and by nothing else: its length is 44 plus the
    lengths of [section_title] and [section_body] plus four times the
    number of newlines in the body.  A body without newlines is
    carried as it is, and converting a concatenation is concatenating
    the conversions. *)
Theorem section_html_length (payload : ReportRequest) :
  String.length (section_html payload)
  = 44 + String.length (section_title payload)
    + String.length (section_body payload)
    + 4 * Py.count_char Py.nl_char (section_body payload)
  /\ (Py.contains_char Py.nl_char (section_body payload) = false ->
      Py.replace (section_body payload) Py.nl "<br/>" = section_body payload)
  /\ (forall a b, section_body payload = a ++ b ->
        Py.replace (section_body payload) Py.nl "<br/>"
        = Py.replace a Py.nl "<br/>" ++ Py.replace b Py.nl "<br/>").
Proof.
  split; [|split].
  - unfold section_html. rewrite replace_nl_expand.
    rewrite !length_append, br_expand_length. simpl. lia.
  - intros H. rewrite replace_nl_expand. now apply br_expand_plain.
  - intros a b H. rewrite !replace_nl_expand, H. apply br_expand_app.
Qed.

End NameProperties.

(* ================================================================== *)
(** ** Further properties of the content list *)

Section ContentProperties.

Import Report.
Local Open Scope all_scope.

Lemma length_concat_repeat (a b : Flowable) (n : nat) :
  List.length (List.concat (repeat [a; b] n)) = 2 * n.
Proof. induction n as [|n IH]; simpl; [reflexivity | rewrite IH; lia]. Qed.

(** X9: for every integer [pages] -- also one the schema would reject --
    a content list that gets built starts with the title block, has a
    page break for each block (so twice as many entries as blocks) and
    [max(pages-1,1)+1] blocks: exactly [pages] blocks from 2 upwards,
    and two blocks for every [pages] below 2.  Building it leaves the
    file system alone. *)
Theorem built_content_shape pf payload w c w' :
  build_content pf payload w = (inr c, w') ->
  w' = w
  /\ hd_error c = Some (title_block payload)
  /\ List.length c = 2 * count_blocks c
  /\ Z.of_nat (count_blocks c) = (Z.max (pages payload - 1) 1 + 1)%Z
  /\ ((2 <= pages payload)%Z -> Z.of_nat (count_blocks c) = pages payload)
  /\ ((pages payload <= 1)%Z -> count_blocks c = 2)
  /\ each_followed_by_break c = true.
Proof.
  intros H. apply build_content_inv in H. destruct H as [-> ->].
  assert (Hn : Z.of_nat (Py.range_len (pages_to_add payload))
               = Z.max (pages payload - 1) 1).
  { unfold Py.range_len, pages_to_add, Py.max. lia. }
  rewrite count_blocks_content_of.
  split; [reflexivity|]. split; [reflexivity|]. split.
  - unfold content_of. cbn [List.length]. rewrite length_concat_repeat. lia.
  - split; [lia|]. split; [lia|]. split; [lia|].
    unfold content_of, title_block, section_block.
    cbn [each_followed_by_break]. apply each_followed_repeat.
Qed.

Lemma built_content_shape_witness :
  List.length (content_of (with_pages 0)) = 2 * count_blocks (content_of (with_pages 0))
  /\ count_blocks (content_of (with_pages 0)) = 2.
Proof.
  destruct (built_content_shape healthy (with_pages 0) empty_world
              (content_of (with_pages 0)) empty_world eq_refl)
    as (_ & _ & H3 & _ & _ & H6 & _).
  split; [exact H3 | apply H6; simpl; lia].
Defined.

(** X10: the handler cannot tell [pages = 1] from [pages = 2], nor from
    any smaller value: two requests that differ only in [pages], both
    at most 2, have the same run on every platform -- the same answer
    and the same document. *)
Theorem pages_up_to_two_same_run pf (t : string) (n1 n2 : Z)
    (st sb : string) (f : option string) (w : World) :
  (n1 <= 2)%Z -> (n2 <= 2)%Z ->
  generate_report pf (mkReportRequest t n1 st sb f) w
  = generate_report pf (mkReportRequest t n2 st sb f) w.
Proof.
  assert (E : forall n, (n <= 2)%Z ->
            generate_report pf (mkReportRequest t n st sb f) w
            = generate_report pf (mkReportRequest t 2 st sb f) w).
  { intros n Hn.
    unfold generate_report, generate_report_try, build_content, pages_to_add.
    cbn [pages]. unfold Py.max.
    replace (Z.max (n - 1) 1) with (Z.max (2 - 1) 1) by lia.
    reflexivity. }
  intros H1 H2. rewrite (E n1 H1), (E n2 H2). reflexivity.
Qed.

Lemma pages_up_to_two_same_run_witness :
  generate_report healthy (with_pages 1) empty_world
  = generate_report healthy (with_pages 2) empty_world.
Proof.
  apply (pages_up_to_two_same_run healthy default_title 1 2
           default_section_title default_section_body
           (Some default_filename) empty_world); lia.
Defined.

End ContentProperties.

(* ================================================================== *)
(** ** Further properties of the health probe *)

Section ProbeProperties.

Import Probe.

Local Arguments Py.take : simpl never.
Local Arguments firstn : simpl never.

(* Runs the probe on each kind of outcome: the import raising either
   class of exception, an uninitialised handle, and a handle whose name
   lookup is absent, present or raising, with the listing going through
   or not. *)
Ltac probe_cases i :=
  unfold after_probe;
  destruct i as [e | [d|]];
  [ cbn; unfold probe_except; destruct (exn_class e) eqn:Ec; cbn
  | unfold Exec.try_except, probe_try, Exec.bind, name_or_connected,
      check_collections, Exec.try_except, Exec.bind, Exec.call, probe_except;
    cbn;
    destruct (db_name d) as [|v|e] eqn:En; cbn;
    [ destruct (list_collection_names d) as [e|names] eqn:El; cbn
    | destruct (list_collection_names d) as [e|names] eqn:El; cbn
    | destruct (exn_class e) eqn:Ec; cbn ]
  | cbn ].

(** X11: [connection_status] reports the handle, not the listing: it
    is [Connected] exactly when the import bound [db] to a handle whose
    [name] lookup did not raise -- also when listing the collections
    then failed -- and [Not Connected] in every other case. *)
Theorem connection_status_meaning (i : Import) (env : Environ) :
  exists r,
    test_database i env = inr r
    /\ (connection_status r = "Connected"
        \/ connection_status r = "Not Connected")
    /\ (connection_status r = "Connected" <->
        exists d, i = Imported (Some d)
                  /\ forall e, db_name d <> AttrRaises e).
Proof.
  exists (env_fields env (after_probe i)).
  split; [apply test_database_returns|].
  probe_cases i.
  - split; [now right|]. split; [discriminate|]. intros (d & H & _). discriminate H.
  - split; [now right|]. split; [discriminate|]. intros (d & H & _). discriminate H.
  - split; [now left|]. split; [|reflexivity]. intros _. exists d.
    split; [reflexivity|]. intros e0. rewrite En. discriminate.
  - split; [now left|]. split; [|reflexivity]. intros _. exists d.
    split; [reflexivity|]. intros e0. rewrite En. discriminate.
  - split; [now left|]. split; [|reflexivity]. intros _. exists d.
    split; [reflexivity|]. intros e0. rewrite En. discriminate.
  - split; [now left|]. split; [|reflexivity]. intros _. exists d.
    split; [reflexivity|]. intros e0. rewrite En. discriminate.
  - split; [now right|]. split; [discriminate|].
    intros (d' & H & Hn). inversion H. subst d'. now destruct (Hn e).
  - split; [now right|]. split; [discriminate|].
    intros (d' & H & Hn). inversion H. subst d'. now destruct (Hn e).
  - split; [now right|]. split; [discriminate|]. intros (d & H & _). discriminate H.
Qed.

(** X12: a response that names any collection comes from a probe that
    went all the way: the handle listed its collections, [database]
    carries the working text and [connection_status] is [Connected]. *)
Theorem collections_only_when_working (i : Import) (env : Environ) :
  exists r,
    test_database i env = inr r
    /\ (collections r <> [] ->
        database r = msg_working
        /\ connection_status r = "Connected"
        /\ exists d names,
             i = Imported (Some d)
             /\ list_collection_names d = inr names
             /\ names <> []
             /\ collections r = firstn 10 names).
Proof.
  exists (env_fields env (after_probe i)).
  split; [apply test_database_returns|].
  probe_cases i; intros H; try congruence.
  - repeat split. exists d, names. repeat split; auto.
    intros ->. now apply H.
  - repeat split. exists d, names. repeat split; auto.
    intros ->. now apply H.
Qed.

(** X13: two of the texts the handler assigns are never returned.  The
    initial [database] text (not available) and the intermediate
    available text are overwritten on every path; [database_url] is
    never left at [None] nor at the configured text, and
    [database_name] is always one of the two environment texts. *)
Theorem placeholder_texts_never_returned (i : Import) (env : Environ) :
  exists r,
    test_database i env = inr r
    /\ database r <> database initial
    /\ database r <> msg_available
    /\ database_url r <> None
    /\ database_url r <> Some msg_configured
    /\ (database_name r = Some msg_set \/ database_name r = Some msg_not_set).
Proof.
  exists (env_fields env (after_probe i)).
  split; [apply test_database_returns|].
  assert (Hu : forall b : bool,
             Some (if b then msg_set else msg_not_set) <> Some msg_configured)
    by (intros []; discriminate).
  assert (Hn : forall b : bool,
             Some (if b then msg_set else msg_not_set) = Some msg_set
             \/ Some (if b then msg_set else msg_not_set) = Some msg_not_set)
    by (intros []; auto).
  probe_cases i; repeat split; try discriminate; try apply Hu; try apply Hn.
Qed.

(** X14: the module-not-found text means that an [ImportError] was
    raised by the import or by the lookup of the handle's [name] -- and
    nothing else: an [ImportError] from listing the collections is
    reported as a connected-but-error state instead. *)
Theorem not_found_text_meaning (i : Import) (env : Environ) :
  exists r,
    test_database i env = inr r
    /\ (database r = msg_not_found <->
        exists e, exn_class e = ImportError
                  /\ (i = ImportRaises e
                      \/ exists d, i = Imported (Some d)
                                   /\ db_name d = AttrRaises e)).
Proof.
  exists (env_fields env (after_probe i)).
  split; [apply test_database_returns|].
  probe_cases i.
  - split; [|reflexivity]. intros _. exists e. auto.
  - split; [discriminate|]. intros (e' & Hc & [H | (d & H & _)]);
      [inversion H; congruence | discriminate H].
  - split; [discriminate|]. intros (e' & Hc & [H | (d' & H & Hd)]);
      [discriminate H | inversion H; congruence].
  - split; [discriminate|]. intros (e' & Hc & [H | (d' & H & Hd)]);
      [discriminate H | inversion H; congruence].
  - split; [discriminate|]. intros (e' & Hc & [H | (d' & H & Hd)]);
      [discriminate H | inversion H; congruence].
  - split; [discriminate|]. intros (e' & Hc & [H | (d' & H & Hd)]);
      [discriminate H | inversion H; congruence].
  - split; [|reflexivity]. intros _. exists e. split; [exact Ec|].
    right. exists d. auto.
  - split; [discriminate|]. intros (e' & Hc & [H | (d' & H & Hd)]);
      [discriminate H | inversion H; congruence].
  - split; [discriminate|]. intros (e' & Hc & [H | (d & H & _)]); discriminate H.
Qed.

Lemma take_long (n : nat) (s : string) :
  n <= String.length s -> String.length (Py.take n s) = n.
Proof.
  revert s; induction n as [|n IH]; intros [|c s] H; try reflexivity.
  - simpl in H. lia.
  - change (Py.take (S n) (String c s)) with (String c (Py.take n s)).
    cbn [String.length]. rewrite IH; [reflexivity | simpl in H; lia].
Qed.

(** X15: the slice keeps a short exception text whole and cuts a long
    one to exactly fifty characters: when the probe embeds the text of
    an exception behind a label, [database] is the label followed by
    the whole text if that has at most fifty characters, and has the
    length of the label plus fifty otherwise. *)
Theorem embedded_text_cut (i : Import) (env : Environ) (label : string) (err : Exn) :
  embedded_error i = Some (label, err) ->
  exists r,
    test_database i env = inr r
    /\ (String.length (exn_str err) <= 50 -> database r = label ++ exn_str err)
    /\ (50 <= String.length (exn_str err) ->
        String.length (database r) = String.length label + 50).
Proof.
  intros He.
  exists (env_fields env (after_probe i)).
  split; [apply test_database_returns|].
  assert (Hcut : forall text,
             text = label ++ Py.take 50 (exn_str err) ->
             (String.length (exn_str err) <= 50 -> text = label ++ exn_str err)
             /\ (50 <= String.length (exn_str err) ->
                 String.length text = String.length label + 50)).
  { intros text ->. split; intros H.
    - now rewrite take_all.
    - now rewrite length_append, take_long. }
  apply Hcut. clear Hcut. revert He.
  unfold embedded_error, outer_error.
  probe_cases i; try rewrite Ec; try rewrite En; try rewrite El;
    intros He; inversion He; reflexivity.
Qed.

Lemma embedded_text_cut_witness :
  exists r,
    test_database (ImportRaises (mkExn OtherException "connection refused"))
                  (mkEnviron None None) = inr r
    /\ (String.length "connection refused" <= 50 ->
        database r = msg_error ++ "connection refused")
    /\ (50 <= String.length "connection refused" ->
        String.length (database r) = String.length msg_error + 50).
Proof.
  apply (embedded_text_cut
           (ImportRaises (mkExn OtherException "connection refused"))
           (mkEnviron None None) msg_error
           (mkExn OtherException "connection refused")).
  reflexivity.
Defined.

End ProbeProperties.
